(** * pgext: OpenTelemetry query hook for go-pg

    A shallow embedding of [otel.go]: the two hook methods [BeforeQuery] and
    [AfterQuery] of [OpenTelemetryHook] and the helper [funcFileLine].

    Go strings are byte sequences; they are modelled by [string] (a list of
    8-bit [ascii]).  Go [int] values (indices, lengths, row counts, line
    numbers) are modelled by [Z]; the code performs no arithmetic on them
    beyond [ind+1] on an index below a string length, so no wrap-around can
    occur.  Calls on the tracing API are recorded in an ordered log. *)

From Stdlib Require Import ZArith List String Ascii Bool Lia.
Import ListNotations.
Open Scope string_scope.
Open Scope Z_scope.
Open Scope list_scope.

(** ** The parts of Go's [strings] and [unicode/utf8] packages the hook uses *)

Module GoStrings.

(** [len(s)] *)
Definition len (s : string) : Z := Z.of_nat (String.length s).

(** [s[lo:hi]]; every use in the hook has [0 <= lo <= hi <= len s]. *)
Definition slice (s : string) (lo hi : Z) : string :=
  substring (Z.to_nat lo) (Z.to_nat (hi - lo)) s.

(** [s[i]] as an unsigned byte value ([0] past the end, never used there). *)
Definition at_ (s : string) (i : Z) : Z :=
  match String.get (Z.to_nat i) s with
  | Some a => Z.of_N (N_of_ascii a)
  | None => 0
  end.

(** [strings.IndexByte]: index of the first [c] in [s], or [-1]. *)
Fixpoint IndexByte (s : string) (c : ascii) : Z :=
  match s with
  | EmptyString => -1
  | String a s' =>
      if Ascii.eqb a c then 0
      else let r := IndexByte s' c in
           if r <? 0 then -1 else r + 1
  end.

(** [strings.LastIndexByte]: index of the last [c] in [s], or [-1]. *)
Fixpoint LastIndexByte (s : string) (c : ascii) : Z :=
  match s with
  | EmptyString => -1
  | String a s' =>
      let r := LastIndexByte s' c in
      if 0 <=? r then r + 1
      else if Ascii.eqb a c then 0 else -1
  end.

(** [strings.Contains]: [substr] occurs somewhere in [s]. *)
Fixpoint Contains (s substr : string) : bool :=
  String.prefix substr s ||
  match s with
  | EmptyString => false
  | String _ s' => Contains s' substr
  end.

(** *** UTF-8 decoding, after [unicode/utf8] *)

Definition RuneError : Z := 65533.
Definition RuneSelf : Z := 128.
Definition UTFMax : Z := 4.

(** The [first] table: the low three bits give the sequence length, the
    high four bits index [acceptRanges]; [as_] marks ASCII and [xx] an
    invalid leading byte. *)
Definition as_ : Z := 240.
Definition xx : Z := 241.

Definition first (b : Z) : Z :=
  if b <? 128 then as_
  else if b <? 194 then xx
  else if b <? 224 then 2      (* s1: 0xC2-0xDF *)
  else if b =? 224 then 19     (* s2: 0xE0 *)
  else if b <? 237 then 3      (* s3: 0xE1-0xEC *)
  else if b =? 237 then 35     (* s4: 0xED *)
  else if b <? 240 then 3      (* s3: 0xEE-0xEF *)
  else if b =? 240 then 52     (* s5: 0xF0 *)
  else if b <? 244 then 4      (* s6: 0xF1-0xF3 *)
  else if b =? 244 then 68     (* s7: 0xF4 *)
  else xx.

Definition locb : Z := 128.
Definition hicb : Z := 191.

(** [acceptRanges[i]] as a pair [(lo, hi)]. *)
Definition acceptRanges (i : Z) : Z * Z :=
  if i =? 1 then (160, hicb)
  else if i =? 2 then (locb, 159)
  else if i =? 3 then (144, hicb)
  else if i =? 4 then (locb, 143)
  else (locb, hicb).

(** [utf8.DecodeRuneInString]: the first rune of [s] and its width. *)
Definition DecodeRuneInString (s : string) : Z * Z :=
  let n := len s in
  if n <? 1 then (RuneError, 0)
  else
    let s0 := at_ s 0 in
    let x := first s0 in
    if as_ <=? x then
      (if x =? as_ then s0 else RuneError, 1)
    else
      let sz := Z.land x 7 in
      let '(lo, hi) := acceptRanges (Z.shiftr x 4) in
      if n <? sz then (RuneError, 1)
      else
        let s1 := at_ s 1 in
        if (s1 <? lo) || (hi <? s1) then (RuneError, 1)
        else if sz <=? 2 then
          (Z.lor (Z.shiftl (Z.land s0 31) 6) (Z.land s1 63), 2)
        else
          let s2 := at_ s 2 in
          if (s2 <? locb) || (hicb <? s2) then (RuneError, 1)
          else if sz <=? 3 then
            (Z.lor (Z.lor (Z.shiftl (Z.land s0 15) 12)
                          (Z.shiftl (Z.land s1 63) 6))
                   (Z.land s2 63), 3)
          else
            let s3 := at_ s 3 in
            if (s3 <? locb) || (hicb <? s3) then (RuneError, 1)
            else
              (Z.lor (Z.lor (Z.lor (Z.shiftl (Z.land s0 7) 18)
                                   (Z.shiftl (Z.land s1 63) 12))
                            (Z.shiftl (Z.land s2 63) 6))
                     (Z.land s3 63), 4).

(** [utf8.RuneStart] *)
Definition RuneStart (b : Z) : bool := negb (Z.land b 192 =? 128).

(** The backward scan of [DecodeLastRuneInString]: from [start] down to
    [lim], stop at the first byte that can start a rune. *)
Fixpoint scan_start (fuel : nat) (s : string) (start lim : Z) : Z :=
  match fuel with
  | O => start
  | S k =>
      if start <? lim then start
      else if RuneStart (at_ s start) then start
      else scan_start k s (start - 1) lim
  end.

(** [utf8.DecodeLastRuneInString]: the last rune of [s] and its width. *)
Definition DecodeLastRuneInString (s : string) : Z * Z :=
  let end_ := len s in
  if end_ =? 0 then (RuneError, 0)
  else
    let start := end_ - 1 in
    let r := at_ s start in
    if r <? RuneSelf then (r, 1)
    else
      let lim := Z.max 0 (end_ - UTFMax) in
      let start := scan_start 4 s (start - 1) lim in
      let start := Z.max 0 start in
      let '(r, size) := DecodeRuneInString (slice s start end_) in
      if negb (start + size =? end_) then (RuneError, 1)
      else (r, size).

(** [unicode.IsSpace] *)
Definition IsSpace (r : Z) : bool :=
  if r <=? 255 then
    (r =? 9) || (r =? 10) || (r =? 11) || (r =? 12) || (r =? 13) ||
    (r =? 32) || (r =? 133) || (r =? 160)
  else
    (r =? 5760) || ((8192 <=? r) && (r <=? 8202)) ||
    (r =? 8232) || (r =? 8233) || (r =? 8239) || (r =? 8287) ||
    (r =? 12288).

(** [indexFunc(s, f, truth)]: byte index of the first rune [r] of [s] with
    [f r = truth], or [-1].  Each round consumes at least one byte, so
    [String.length s] rounds always suffice. *)
Fixpoint indexFunc_from (fuel : nat) (s : string) (i : Z)
         (f : Z -> bool) (truth : bool) : Z :=
  match fuel with
  | O => -1
  | S k =>
      if len s <=? i then -1
      else
        let '(r, size) := DecodeRuneInString (slice s i (len s)) in
        if Bool.eqb (f r) truth then i
        else indexFunc_from k s (i + size) f truth
  end.

Definition indexFunc (s : string) (f : Z -> bool) (truth : bool) : Z :=
  indexFunc_from (String.length s) s 0 f truth.

(** [lastIndexFunc(s, f, truth)]: byte index of the last such rune. *)
Fixpoint lastIndexFunc_from (fuel : nat) (s : string) (i : Z)
         (f : Z -> bool) (truth : bool) : Z :=
  match fuel with
  | O => -1
  | S k =>
      if i <=? 0 then -1
      else
        let '(r, size) := DecodeLastRuneInString (slice s 0 i) in
        let i := i - size in
        if Bool.eqb (f r) truth then i
        else lastIndexFunc_from k s i f truth
  end.

Definition lastIndexFunc (s : string) (f : Z -> bool) (truth : bool) : Z :=
  lastIndexFunc_from (String.length s) s (len s) f truth.

Definition TrimLeftFunc (s : string) (f : Z -> bool) : string :=
  let i := indexFunc s f false in
  if i =? -1 then "" else slice s i (len s).

Definition TrimRightFunc (s : string) (f : Z -> bool) : string :=
  let i := lastIndexFunc s f false in
  let i :=
    if (0 <=? i) && (RuneSelf <=? at_ s i) then
      i + snd (DecodeRuneInString (slice s i (len s)))
    else i + 1 in
  slice s 0 i.

Definition TrimFunc (s : string) (f : Z -> bool) : string :=
  TrimRightFunc (TrimLeftFunc s f) f.

(** [strings.TrimSpace]: leading and trailing Unicode white space removed.
    (Go adds an ASCII fast path that computes the same result.) *)
Definition TrimSpace (s : string) : string := TrimFunc s IsSpace.

End GoStrings.

Import GoStrings.

(** ** Collaborators: the ORM, the tracing API and the runtime

    Only what [otel.go] observes of each package is modelled. *)

Module orm.

(** [orm.QueryOp] is a string type. *)
Definition QueryOp : Type := string.

Definition SelectOp : QueryOp := "SELECT".
Definition InsertOp : QueryOp := "INSERT".
Definition UpdateOp : QueryOp := "UPDATE".
Definition DeleteOp : QueryOp := "DELETE".

(** [orm.Result], through its two methods. *)
Record Result : Type := { RowsAffected : Z; RowsReturned : Z }.

End orm.

Module pg.

(** Go [error] values: the two sentinels of package [pg], which
    [AfterQuery] tells apart with [==], and every other error. *)
Inductive error : Type :=
| ErrNoRows
| ErrMultiRows
| errorString (s : string).

Record Options : Type := { Addr : string; User : string; Database : string }.

(** The dynamic type behind [evt.DB]: a [*pg.DB], or some other
    implementation of [orm.DB]. *)
Inductive Handle : Type :=
| PgDB (opt : Options)
| OtherDB.

(** The dynamic type behind [evt.Query]: a value with an [Operation]
    method, or one without. *)
Inductive QueryValue : Type :=
| WithOperation (op : orm.QueryOp)
| WithoutOperation.

(** [pg.QueryEvent].  The two rendering methods belong to the ORM; their
    outcome [(b, err)] for this event is carried as two fields. *)
Record QueryEvent : Type := {
  DB : Handle;
  Query : QueryValue;
  Err : option error;
  Result : option orm.Result;
  UnformattedQuery : string * option error;
  FormattedQuery : string * option error
}.

End pg.

Module codes.
Inductive Code : Type := OK | NotFound | Internal.
End codes.

Module label.

Inductive Value : Type :=
| STRING (s : string)
| INT (n : Z).

Definition KeyValue : Type := (string * Value)%type.

Definition String (k v : string) : KeyValue := (k, STRING v).
Definition Int (k : string) (v : Z) : KeyValue := (k, INT v).

End label.

Module trace.

(** A span handle: its identity and what [IsRecording] answers. *)
Record Span : Type := { span_id : nat; IsRecording : bool }.

Definition NoopSpan : Span := {| span_id := 0; IsRecording := false |}.

(** [context.Context]: the current span, if any, among other values. *)
Record Context : Type := {
  ctx_values : list (string * string);
  ctx_span : option Span
}.

Definition SpanFromContext (ctx : Context) : Span :=
  match ctx_span ctx with
  | Some span => span
  | None => NoopSpan
  end.

(** One call on the tracing API. *)
Inductive Call : Type :=
| Start (ctx : Context) (name : string)
| SetName (span : Span) (name : string)
| SetStatus (span : Span) (code : codes.Code) (msg : string)
| RecordError (span : Span) (ctx : Context) (err : pg.error)
| SetAttributes (span : Span) (attrs : list label.KeyValue)
| End_ (span : Span).

(** The tracer: what [Start] returns is the tracing runtime's choice. *)
Record Tracer : Type := { start : Context -> string -> Context * Span }.

End trace.

Module runtime.

Record Frame : Type := { Function : string; File : string; Line : Z }.

Definition zeroFrame : Frame := {| Function := ""; File := ""; Line := 0 |}.

(** [runtime.Callers(skip, pc)] with [len(pc) = depth], on a goroutine
    stack listed innermost first whose frame [0] is [Callers] itself.
    Program counters and frames are identified (no inlining). *)
Definition Callers (skip depth : nat) (stack : list Frame) : list Frame :=
  firstn depth (skipn skip stack).

(** [runtime.Frames]: the frames not yet returned. *)
Definition Frames : Type := list Frame.

Definition CallersFrames (pcs : list Frame) : Frames := pcs.

(** [Frames.Next]: the next frame, whether a further call will return
    a valid frame ([more]), and the iterator afterwards.  With nothing
    left it returns the zero frame and [false]. *)
Definition Next (ff : Frames) : Frame * bool * Frames :=
  match ff with
  | [] => (zeroFrame, false, [])
  | f :: rest => (f, match rest with [] => false | _ :: _ => true end, rest)
  end.

End runtime.

(** ** Effects: a log of tracing calls *)

Definition M (A : Type) : Type := (A * list trace.Call)%type.

Definition ret {A} (a : A) : M A := (a, []).

Definition bind {A B} (m : M A) (k : A -> M B) : M B :=
  let '(a, l1) := m in
  let '(b, l2) := k a in
  (b, l1 ++ l2).

Definition call (c : trace.Call) : M unit := (tt, [c]).

Notation "x <- m ;; k" := (bind m (fun x => k))
  (at level 61, m at next level, right associativity).
Notation "m ;;; k" := (bind m (fun _ => k))
  (at level 61, right associativity).

(** [defer d] followed by [body]: [d] runs when [body] returns. *)
Definition defer {A} (d : M unit) (body : M A) : M A :=
  r <- body ;; d ;;; ret r.

Definition result {A} (m : M A) : A := fst m.
Definition calls {A} (m : M A) : list trace.Call := snd m.

(** ** [otel.go] *)

Section Hook.

(** [var tracer = global.Tracer("github.com/go-pg/pg")] *)
Variable tracer : trace.Tracer.

Definition tracer_Start (ctx : trace.Context) (name : string)
  : M (trace.Context * trace.Span) :=
  call (trace.Start ctx name) ;;; ret (trace.start tracer ctx name).

Definition BeforeQuery (ctx : trace.Context) (evt : pg.QueryEvent)
  : M (trace.Context * option pg.error) :=
  if negb (trace.IsRecording (trace.SpanFromContext ctx)) then
    ret (ctx, None)
  else
    r <- tracer_Start ctx "" ;;
    let ctx := fst r in
    ret (ctx, None).

End Hook.

(** The loop of [funcFileLine].  Every round takes one frame from [ff], so
    [S (List.length ff)] rounds suffice (see [funcFileLine_loop_fuel]). *)
Fixpoint funcFileLine_loop (fuel : nat) (pkg : string) (ff : runtime.Frames)
         (fn file : string) (line : Z) : string * string * Z :=
  match fuel with
  | O => (fn, file, line)
  | S k =>
      let '(f, ok, ff) := runtime.Next ff in
      if negb ok then (fn, file, line)
      else
        let fn := runtime.Function f in
        let file := runtime.File f in
        let line := runtime.Line f in
        if negb (Contains fn pkg) then (fn, file, line)
        else funcFileLine_loop k pkg ff fn file line
  end.

(** [funcFileLine(pkg)], run on the goroutine stack [stack] that
    [runtime.Callers] sees: frame [0] is [Callers], frame [1] is
    [funcFileLine], frame [2] is its caller. *)
Definition funcFileLine (stack : list runtime.Frame) (pkg : string)
  : string * string * Z :=
  let depth := 16%nat in
  let pcs := runtime.Callers 3 depth stack in
  let ff := runtime.CallersFrames pcs in
  let '(fn, file, line) := funcFileLine_loop (S (List.length ff)) pkg ff "" "" 0 in
  let ind := LastIndexByte fn "/" in
  let fn := if negb (ind =? -1) then slice fn (ind + 1) (len fn) else fn in
  (fn, file, line).

(** The three frames below [AfterQuery]'s callers while [funcFileLine] runs
    [runtime.Callers]; all three are skipped. *)
Definition frame_Callers : runtime.Frame :=
  {| runtime.Function := "runtime.Callers";
     runtime.File := "runtime/extern.go"; runtime.Line := 0 |}.
Definition frame_funcFileLine : runtime.Frame :=
  {| runtime.Function := "github.com/NathanBaulch/pgext.funcFileLine";
     runtime.File := "otel.go"; runtime.Line := 123 |}.
Definition frame_AfterQuery : runtime.Frame :=
  {| runtime.Function := "github.com/NathanBaulch/pgext.OpenTelemetryHook.AfterQuery";
     runtime.File := "otel.go"; runtime.Line := 78 |}.

Definition queryLimit : Z := 5000.

(** [AfterQuery(ctx, evt)], called with [callers] on the stack above it
    (innermost first). *)
Definition AfterQuery (callers : list runtime.Frame)
           (ctx : trace.Context) (evt : pg.QueryEvent) : M (option pg.error) :=
  let span := trace.SpanFromContext ctx in
  if negb (trace.IsRecording span) then ret None
  else
    defer (call (trace.End_ span)) (
      let operation : orm.QueryOp :=
        match pg.Query evt with
        | pg.WithOperation v => v
        | pg.WithoutOperation => ""
        end in
      let rendered : string + pg.error :=
        if String.eqb operation orm.InsertOp then
          let '(b, err) := pg.UnformattedQuery evt in
          match err with Some err => inr err | None => inl b end
        else
          let '(b, err) := pg.FormattedQuery evt in
          match err with Some err => inr err | None => inl b end in
      match rendered with
      | inr err => ret (Some err)
      | inl query =>
          (if negb (String.eqb operation "") then
             call (trace.SetName span operation)
           else
             let idx := IndexByte query " " in
             if idx >=? 0 then
               let idx := if idx >? 20 then 20 else idx in
               call (trace.SetName span (TrimSpace (slice query 0 idx)))
             else ret tt) ;;;
          let query :=
            if len query >? queryLimit then slice query 0 queryLimit
            else query in
          let '(fn, file, line) :=
            funcFileLine
              (frame_Callers :: frame_funcFileLine :: frame_AfterQuery :: callers)
              "github.com/go-pg/pg" in
          let attrs :=
            [ label.String "db.system" "postgres";
              label.String "db.statement" query;
              label.String "frame.func" fn;
              label.String "frame.file" file;
              label.Int "frame.line" line ] in
          let attrs :=
            match pg.DB evt with
            | pg.PgDB opt =>
                attrs ++
                [ label.String "db.connection_string" (pg.Addr opt);
                  label.String "db.user" (pg.User opt);
                  label.String "db.name" (pg.Database opt) ]
            | pg.OtherDB => attrs
            end in
          attrs <-
            match pg.Err evt with
            | Some err =>
                match err with
                | pg.ErrNoRows | pg.ErrMultiRows =>
                    call (trace.SetStatus span codes.NotFound "") ;;;
                    ret attrs
                | _ =>
                    call (trace.SetStatus span codes.Internal "") ;;;
                    call (trace.RecordError span ctx err) ;;;
                    ret attrs
                end
            | None =>
                match pg.Result evt with
                | Some res =>
                    let numRow := orm.RowsAffected res in
                    let numRow :=
                      if numRow =? 0 then orm.RowsReturned res else numRow in
                    ret (attrs ++ [label.Int "db.rows_affected" numRow])
                | None => ret attrs
                end
            end ;;
          call (trace.SetAttributes span attrs) ;;;
          ret None
      end).

(** ** What a log shows of a span *)

(** Names given by [SetName], in order. *)
Fixpoint names_set (l : list trace.Call) : list string :=
  match l with
  | [] => []
  | trace.SetName _ n :: l' => n :: names_set l'
  | _ :: l' => names_set l'
  end.

(** Statuses given by [SetStatus], in order. *)
Fixpoint statuses_set (l : list trace.Call) : list (codes.Code * string) :=
  match l with
  | [] => []
  | trace.SetStatus _ c m :: l' => (c, m) :: statuses_set l'
  | _ :: l' => statuses_set l'
  end.

(** Errors handed to [RecordError], in order. *)
Fixpoint errors_recorded (l : list trace.Call) : list pg.error :=
  match l with
  | [] => []
  | trace.RecordError _ _ e :: l' => e :: errors_recorded l'
  | _ :: l' => errors_recorded l'
  end.

(** Attributes handed to [SetAttributes], in order. *)
Fixpoint attributes_set (l : list trace.Call) : list label.KeyValue :=
  match l with
  | [] => []
  | trace.SetAttributes _ kvs :: l' => kvs ++ attributes_set l'
  | _ :: l' => attributes_set l'
  end.

(** Spans closed by [End], in order. *)
Fixpoint spans_ended (l : list trace.Call) : list trace.Span :=
  match l with
  | [] => []
  | trace.End_ s :: l' => s :: spans_ended l'
  | _ :: l' => spans_ended l'
  end.

(** Values attached under [key]. *)
Fixpoint values_of (key : string) (kvs : list label.KeyValue) : list label.Value :=
  match kvs with
  | [] => []
  | (k, v) :: kvs' =>
      if String.eqb k key then v :: values_of key kvs' else values_of key kvs'
  end.

Definition attribute (key : string) (m : M (option pg.error)) : list label.Value :=
  values_of key (attributes_set (calls m)).

(** ** Notions of the specification *)

(** The operation kind captured from the event (lines 43-47): the query's
    own report when it can give one, the empty kind otherwise. *)
Definition operation_kind (evt : pg.QueryEvent) : orm.QueryOp :=
  match pg.Query evt with
  | pg.WithOperation v => v
  | pg.WithoutOperation => ""
  end.

(** The rendering the hook asks of the event: unformatted for an insert,
    formatted otherwise. *)
Definition rendering (evt : pg.QueryEvent) : string * option pg.error :=
  if String.eqb (operation_kind evt) orm.InsertOp
  then pg.UnformattedQuery evt
  else pg.FormattedQuery evt.

Definition recording (ctx : trace.Context) : bool :=
  trace.IsRecording (trace.SpanFromContext ctx).

(** The first space of [query] is at byte [i]. *)
Definition first_space_at (query : string) (i : nat) : Prop :=
  String.get i query = Some " "%char /\
  forall j, (j < i)%nat -> String.get j query <> Some " "%char.

Definition no_space (query : string) : Prop :=
  forall j, String.get j query <> Some " "%char.

(** The frames [funcFileLine] captures from [stack]. *)
Definition captured (stack : list runtime.Frame) : list runtime.Frame :=
  runtime.CallersFrames (runtime.Callers 3 16 stack).

(** The function name after its final ['/'] (lines 139-141). *)
Definition after_last_slash (fn : string) : string :=
  let ind := LastIndexByte fn "/" in
  if negb (ind =? -1) then slice fn (ind + 1) (len fn) else fn.

(** The resolver as the specification words it: going outward, the first
    frame whose function name does not contain [pkg], or the outermost
    frame when every name contains it. *)
Fixpoint locate_spec (pkg : string) (frames : list runtime.Frame)
  : option runtime.Frame :=
  match frames with
  | [] => None
  | f :: rest =>
      if negb (Contains (runtime.Function f) pkg) then Some f
      else match rest with
           | [] => Some f
           | _ :: _ => locate_spec pkg rest
           end
  end.

Definition report (f : runtime.Frame) : string * string * Z :=
  (after_last_slash (runtime.Function f), runtime.File f, runtime.Line f).

(** ** Sample inputs *)

Definition sample_span : trace.Span :=
  {| trace.span_id := 1; trace.IsRecording := true |}.

Definition sample_ctx : trace.Context :=
  {| trace.ctx_values := [("request_id", "42")];
     trace.ctx_span := Some sample_span |}.

Definition idle_ctx : trace.Context :=
  {| trace.ctx_values := [("request_id", "42")]; trace.ctx_span := None |}.

(** A tracer whose spans record and take the next identifier. *)
Definition sample_tracer : trace.Tracer :=
  {| trace.start := fun ctx _ =>
       let span :=
         {| trace.span_id := S (trace.span_id (trace.SpanFromContext ctx));
            trace.IsRecording := true |} in
       ({| trace.ctx_values := trace.ctx_values ctx;
           trace.ctx_span := Some span |}, span) |}.

Definition lib_frame (method : string) (line : Z) : runtime.Frame :=
  {| runtime.Function := "github.com/go-pg/pg/v10.baseDB." ++ method;
     runtime.File := "github.com/go-pg/pg/v10/base.go";
     runtime.Line := line |}.

Definition app_frame : runtime.Frame :=
  {| runtime.Function := "example.com/shop/store.LoadOrders";
     runtime.File := "store/orders.go"; runtime.Line := 57 |}.

Definition outer_frames : list runtime.Frame :=
  [ {| runtime.Function := "main.main";
       runtime.File := "main.go"; runtime.Line := 12 |};
    {| runtime.Function := "runtime.main";
       runtime.File := "runtime/proc.go"; runtime.Line := 250 |};
    {| runtime.Function := "runtime.goexit";
       runtime.File := "runtime/asm_amd64.s"; runtime.Line := 1571 |} ].

Definition sample_callers : list runtime.Frame :=
  [ lib_frame "afterQuery" 140; lib_frame "query" 310; lib_frame "Query" 290;
    app_frame ] ++ outer_frames.

Definition sample_options : pg.Options :=
  {| pg.Addr := "localhost:5432"; pg.User := "shop"; pg.Database := "orders" |}.

Definition select_evt : pg.QueryEvent :=
  {| pg.DB := pg.PgDB sample_options;
     pg.Query := pg.WithoutOperation;
     pg.Err := None;
     pg.Result := Some {| orm.RowsAffected := 0; orm.RowsReturned := 3 |};
     pg.UnformattedQuery := ("SELECT * FROM orders WHERE id = ?", None);
     pg.FormattedQuery := ("SELECT * FROM orders WHERE id = 7", None) |}.

Definition no_rows_evt : pg.QueryEvent :=
  {| pg.DB := pg.PgDB sample_options;
     pg.Query := pg.WithOperation orm.SelectOp;
     pg.Err := Some pg.ErrNoRows;
     pg.Result := None;
     pg.UnformattedQuery := ("SELECT * FROM orders WHERE id = ?", None);
     pg.FormattedQuery := ("SELECT * FROM orders WHERE id = 7", None) |}.

Definition unrenderable_evt : pg.QueryEvent :=
  {| pg.DB := pg.OtherDB;
     pg.Query := pg.WithOperation orm.UpdateOp;
     pg.Err := None;
     pg.Result := Some {| orm.RowsAffected := 1; orm.RowsReturned := 0 |};
     pg.UnformattedQuery := ("UPDATE orders SET total = ?", None);
     pg.FormattedQuery := ("", Some (pg.errorString "pg: too few parameters")) |}.

Fixpoint repeat_string (n : nat) (s : string) : string :=
  match n with
  | O => ""
  | S k => (s ++ repeat_string k s)%string
  end.

(** An insert of 1001 rows: 5034 bytes unformatted. *)
Definition bulk_insert_text : string :=
  ("INSERT INTO events (id) VALUES " ++ repeat_string 1000 "(?), " ++ "(?)")%string.

Definition bulk_insert_evt : pg.QueryEvent :=
  {| pg.DB := pg.PgDB sample_options;
     pg.Query := pg.WithOperation orm.InsertOp;
     pg.Err := None;
     pg.Result := Some {| orm.RowsAffected := 1001; orm.RowsReturned := 0 |};
     pg.UnformattedQuery := (bulk_insert_text, None);
     pg.FormattedQuery := (bulk_insert_text, None) |}.

(** A call that reaches the hook through fifteen frames of the ORM: the
    application frame is the sixteenth, and last, frame captured. *)
Definition deep_callers : list runtime.Frame :=
  map (fun n => lib_frame "query" (Z.of_nat n)) (seq 300 15)
  ++ [app_frame] ++ outer_frames.

Definition deep_stack : list runtime.Frame :=
  frame_Callers :: frame_funcFileLine :: frame_AfterQuery :: deep_callers.

(** ** Further notions for the properties of the whole hook *)

(** The span a call is made on; [Start] is a call on the tracer. *)
Definition call_span (c : trace.Call) : option trace.Span :=
  match c with
  | trace.Start _ _ => None
  | trace.SetName span _ => Some span
  | trace.SetStatus span _ _ => Some span
  | trace.RecordError span _ _ => Some span
  | trace.SetAttributes span _ => Some span
  | trace.End_ span => Some span
  end.

(** The namespace [AfterQuery] passes to [funcFileLine] (line 78). *)
Definition pg_namespace : string := "github.com/go-pg/pg".

(** The frame's function name contains [pkg]. *)
Definition inside (pkg : string) (f : runtime.Frame) : Prop :=
  Contains (runtime.Function f) pkg = true.

(** The event with another outcome of one rendering method. *)
Definition with_FormattedQuery (evt : pg.QueryEvent)
           (r : string * option pg.error) : pg.QueryEvent :=
  {| pg.DB := pg.DB evt; pg.Query := pg.Query evt; pg.Err := pg.Err evt;
     pg.Result := pg.Result evt;
     pg.UnformattedQuery := pg.UnformattedQuery evt;
     pg.FormattedQuery := r |}.

Definition with_UnformattedQuery (evt : pg.QueryEvent)
           (r : string * option pg.error) : pg.QueryEvent :=
  {| pg.DB := pg.DB evt; pg.Query := pg.Query evt; pg.Err := pg.Err evt;
     pg.Result := pg.Result evt;
     pg.UnformattedQuery := r;
     pg.FormattedQuery := pg.FormattedQuery evt |}.

(** A tracer whose spans are sampled out: they do not record. *)
Definition unsampled_tracer : trace.Tracer :=
  {| trace.start := fun ctx _ =>
       let span :=
         {| trace.span_id := S (trace.span_id (trace.SpanFromContext ctx));
            trace.IsRecording := false |} in
       ({| trace.ctx_values := trace.ctx_values ctx;
           trace.ctx_span := Some span |}, span) |}.

(** An event whose query text begins with a space. *)
Definition padded_evt : pg.QueryEvent :=
  {| pg.DB := pg.OtherDB;
     pg.Query := pg.WithoutOperation;
     pg.Err := Some (pg.errorString "pg: connection refused");
     pg.Result := None;
     pg.UnformattedQuery := (" SELECT ?", None);
     pg.FormattedQuery := (" SELECT 1", None) |}.

(** ** White space, independently of the decoder

    What "white-space-trimmed" means for a byte string, stated on the
    encodings themselves. *)

(** [DecodeRuneInString] as a function of the length of the string and of
    its first four bytes. *)
Definition decode4 (n s0 s1 s2 s3 : Z) : Z * Z :=
  if n <? 1 then (RuneError, 0)
  else
    let x := first s0 in
    if as_ <=? x then
      (if x =? as_ then s0 else RuneError, 1)
    else
      let sz := Z.land x 7 in
      let '(lo, hi) := acceptRanges (Z.shiftr x 4) in
      if n <? sz then (RuneError, 1)
      else
        if (s1 <? lo) || (hi <? s1) then (RuneError, 1)
        else if sz <=? 2 then
          (Z.lor (Z.shiftl (Z.land s0 31) 6) (Z.land s1 63), 2)
        else
          if (s2 <? locb) || (hicb <? s2) then (RuneError, 1)
          else if sz <=? 3 then
            (Z.lor (Z.lor (Z.shiftl (Z.land s0 15) 12)
                          (Z.shiftl (Z.land s1 63) 6))
                   (Z.land s2 63), 3)
          else
            if (s3 <? locb) || (hicb <? s3) then (RuneError, 1)
            else
              (Z.lor (Z.lor (Z.lor (Z.shiftl (Z.land s0 7) 18)
                                   (Z.shiftl (Z.land s1 63) 12))
                            (Z.shiftl (Z.land s2 63) 6))
                     (Z.land s3 63), 4).

(** The code point a well-formed sequence of two, three or four bytes
    encodes. *)
Definition rune2 (b0 b1 : Z) : Z := (b0 - 192) * 64 + (b1 - 128).
Definition rune3 (b0 b1 b2 : Z) : Z :=
  (b0 - 224) * 4096 + (b1 - 128) * 64 + (b2 - 128).
Definition rune4 (b0 b1 b2 b3 : Z) : Z :=
  (b0 - 240) * 262144 + (b1 - 128) * 4096 + (b2 - 128) * 64 + (b3 - 128).

(** The well-formed sequences of two, three and four bytes. *)
Definition two_ok (b0 b1 : Z) : Prop :=
  194 <= b0 <= 223 /\ 128 <= b1 <= 191.
Definition three_ok (b0 b1 b2 : Z) : Prop :=
  224 <= b0 <= 239 /\ 128 <= b1 <= 191 /\
  (b0 = 224 -> 160 <= b1) /\ (b0 = 237 -> b1 <= 159) /\ 128 <= b2 <= 191.
Definition four_ok (b0 b1 b2 b3 : Z) : Prop :=
  240 <= b0 <= 244 /\ 128 <= b1 <= 191 /\
  (b0 = 240 -> 144 <= b1) /\ (b0 = 244 -> b1 <= 143) /\
  128 <= b2 <= 191 /\ 128 <= b3 <= 191.

(** The value of a byte. *)
Definition byte (a : ascii) : Z := Z.of_N (N_of_ascii a).

(** The UTF-8 encodings of the Unicode white space characters: U+0009 to
    U+000D, U+0020, U+0085, U+00A0, U+1680, U+2000 to U+200A, U+2028,
    U+2029, U+202F, U+205F and U+3000. *)
Definition space_encodings : list string :=
  [ String "009" ""; String "010" ""; String "011" ""; String "012" "";
    String "013" ""; String "032" "";
    String "194" (String "133" "");
    String "194" (String "160" "");
    String "225" (String "154" (String "128" ""));
    String "226" (String "128" (String "128" ""));
    String "226" (String "128" (String "129" ""));
    String "226" (String "128" (String "130" ""));
    String "226" (String "128" (String "131" ""));
    String "226" (String "128" (String "132" ""));
    String "226" (String "128" (String "133" ""));
    String "226" (String "128" (String "134" ""));
    String "226" (String "128" (String "135" ""));
    String "226" (String "128" (String "136" ""));
    String "226" (String "128" (String "137" ""));
    String "226" (String "128" (String "138" ""));
    String "226" (String "128" (String "168" ""));
    String "226" (String "128" (String "169" ""));
    String "226" (String "128" (String "175" ""));
    String "226" (String "129" (String "159" ""));
    String "227" (String "128" (String "128" "")) ].

(** A run of encoded white space characters. *)
Inductive white_space : string -> Prop :=
| white_nil : white_space ""
| white_cons e s :
    In e space_encodings -> white_space s -> white_space (e ++ s).

Definition starts_with_space (t : string) : Prop :=
  exists e rest, In e space_encodings /\ t = (e ++ rest)%string.

Definition ends_with_space (t : string) : Prop :=
  exists e rest, In e space_encodings /\ t = (rest ++ e)%string.

(** [t] is [s] with the white space at both ends removed: [t] sits in [s]
    between two runs of white space, and neither starts nor ends with a
    white space character. *)
Definition trimmed_of (s t : string) : Prop :=
  exists lead trail,
    s = (lead ++ t ++ trail)%string /\
    white_space lead /\ white_space trail /\
    ~ starts_with_space t /\ ~ ends_with_space t.

(** An event whose query text is indented: a newline and a tab come
    before the first word. *)
Definition indented_evt : pg.QueryEvent :=
  {| pg.DB := pg.OtherDB;
     pg.Query := pg.WithoutOperation;
     pg.Err := None;
     pg.Result := Some {| orm.RowsAffected := 0; orm.RowsReturned := 2 |};
     pg.UnformattedQuery :=
       (String "010" (String "009" "SELECT * FROM orders WHERE id = ?"), None);
     pg.FormattedQuery :=
       (String "010" (String "009" "SELECT * FROM orders WHERE id = 7"), None) |}.

(** * Proofs *)

(** ** The model on small inputs *)

Example IndexByte_ex : IndexByte "SELECT 1" " "%char = 6.
Proof. reflexivity. Qed.

Example LastIndexByte_ex :
  LastIndexByte "example.com/shop/store.LoadOrders" "/"%char = 16.
Proof. reflexivity. Qed.

Example TrimSpace_ex1 : TrimSpace (String "009" (String "010" "SELECT")) = "SELECT".
Proof. vm_compute. reflexivity. Qed.

Example TrimSpace_ex2 :
  TrimSpace (String "194" (String "160" (String "065" (String "226" (String "128" (String "131" ""))))))
  = "A".
Proof. vm_compute. reflexivity. Qed.

Example TrimSpace_ex3 :
  TrimSpace (String "009" (String "226" (String "128" ""))) = String "226" (String "128" "").
Proof. vm_compute. reflexivity. Qed.

Example bulk_insert_text_length : len bulk_insert_text = 5034.
Proof. vm_compute. reflexivity. Qed.

Example sample_select_log :
  AfterQuery sample_callers sample_ctx select_evt =
    (None,
     [ trace.SetName sample_span "SELECT";
       trace.SetAttributes sample_span
         [ ("db.system", label.STRING "postgres");
           ("db.statement", label.STRING "SELECT * FROM orders WHERE id = 7");
           ("frame.func", label.STRING "store.LoadOrders");
           ("frame.file", label.STRING "store/orders.go");
           ("frame.line", label.INT 57);
           ("db.connection_string", label.STRING "localhost:5432");
           ("db.user", label.STRING "shop");
           ("db.name", label.STRING "orders");
           ("db.rows_affected", label.INT 3) ];
       trace.End_ sample_span ]).
Proof. vm_compute. reflexivity. Qed.

Example indented_query_name :
  names_set (calls (AfterQuery sample_callers sample_ctx indented_evt)) =
    ["SELECT"].
Proof. vm_compute. reflexivity. Qed.

(** ** Proof support *)

Arguments funcFileLine : simpl never.
Arguments TrimSpace : simpl never.
Arguments slice : simpl never.
Arguments IndexByte : simpl never.
Arguments len : simpl never.
Arguments String.eqb : simpl never.

Lemma values_of_app key l1 l2 :
  values_of key (l1 ++ l2) = values_of key l1 ++ values_of key l2.
Proof.
  induction l1 as [|[k v] l1 IH]; simpl; [reflexivity|].
  destruct (String.eqb k key); simpl; now rewrite IH.
Qed.

(** Unfolds the hook on a recording span and splits on the rendering. *)
Ltac enter_AfterQuery Hrec :=
  unfold AfterQuery, attribute, calls, result, defer, bind, call, ret;
  unfold recording in Hrec; rewrite Hrec; cbn [negb];
  unfold rendering, operation_kind in *.

Ltac split_hook :=
  repeat match goal with
  | |- context [match ?x with _ => _ end] =>
      lazymatch x with
      | context [match _ with _ => _ end] => fail
      | _ => destruct x eqn:?
      end
  end.

(** ** Facts about byte strings *)

Lemma substring_0_length s : substring 0 (String.length s) s = s.
Proof. induction s as [|a s IH]; simpl; [reflexivity|now rewrite IH]. Qed.

Lemma length_substring_0 n s :
  String.length (substring 0 n s) = Nat.min n (String.length s).
Proof.
  revert n. induction s as [|a s IH]; intros [|n]; simpl; try reflexivity.
  now rewrite IH.
Qed.

Lemma len_nonneg s : 0 <= len s.
Proof. unfold len. lia. Qed.

Lemma substring_split s : forall k,
  s = (substring 0 k s ++ substring k (String.length s - k) s)%string.
Proof.
  induction s as [|a s IH]; intros [|k]; simpl; try reflexivity.
  - now rewrite substring_0_length.
  - f_equal. apply IH.
Qed.

(** The truncation of lines 73-76 keeps the first [min (len query) 5000]
    bytes. *)
Lemma truncation_prefix query :
  (if len query >? queryLimit then slice query 0 queryLimit else query) =
  substring 0 (Nat.min (String.length query) 5000) query.
Proof.
  unfold queryLimit, len, slice.
  destruct (Z.gtb_spec (Z.of_nat (String.length query)) 5000) as [H|H].
  - replace (Nat.min (String.length query) 5000) with 5000%nat by lia.
    reflexivity.
  - replace (Nat.min (String.length query) 5000)
      with (String.length query) by lia.
    now rewrite substring_0_length.
Qed.

(** ** [IndexByte] finds the first occurrence *)

Lemma IndexByte_nil c : IndexByte "" c = -1.
Proof. reflexivity. Qed.

Lemma IndexByte_cons a s c :
  IndexByte (String a s) c =
    if Ascii.eqb a c then 0
    else if IndexByte s c <? 0 then -1 else IndexByte s c + 1.
Proof. reflexivity. Qed.

Lemma IndexByte_bounds s c : -1 <= IndexByte s c < len s.
Proof.
  induction s as [|a s IH].
  - rewrite IndexByte_nil. unfold len. simpl. lia.
  - rewrite IndexByte_cons. unfold len in *. simpl String.length.
    destruct (Ascii.eqb a c); [lia|].
    destruct (Z.ltb_spec (IndexByte s c) 0); lia.
Qed.

Lemma IndexByte_found s c :
  0 <= IndexByte s c ->
  String.get (Z.to_nat (IndexByte s c)) s = Some c /\
  forall j, (j < Z.to_nat (IndexByte s c))%nat -> String.get j s <> Some c.
Proof.
  induction s as [|a s IH].
  - rewrite IndexByte_nil. lia.
  - rewrite IndexByte_cons.
    destruct (Ascii.eqb_spec a c) as [->|Hac].
    + intros _. split; [reflexivity|]. simpl. lia.
    + destruct (Z.ltb_spec (IndexByte s c) 0) as [Hlt|Hge]; [lia|].
      intros _. destruct (IH Hge) as [Hget Hbefore].
      replace (Z.to_nat (IndexByte s c + 1))
        with (S (Z.to_nat (IndexByte s c))) by lia.
      split; [exact Hget|].
      intros [|j] Hj; simpl.
      * congruence.
      * apply Hbefore. lia.
Qed.

Lemma IndexByte_absent s c :
  IndexByte s c < 0 -> forall j, String.get j s <> Some c.
Proof.
  induction s as [|a s IH].
  - intros _ j. destruct j; discriminate.
  - rewrite IndexByte_cons.
    destruct (Ascii.eqb_spec a c) as [->|Hac]; [lia|].
    destruct (Z.ltb_spec (IndexByte s c) 0) as [Hlt|Hge]; [|lia].
    intros _ [|j]; simpl; [congruence|now apply IH].
Qed.

(** ** [LastIndexByte] finds the last occurrence, [Contains] a substring *)

Lemma LastIndexByte_cons a s c :
  LastIndexByte (String a s) c =
    if 0 <=? LastIndexByte s c then LastIndexByte s c + 1
    else if Ascii.eqb a c then 0 else -1.
Proof. reflexivity. Qed.

Lemma LastIndexByte_bounds s c : -1 <= LastIndexByte s c < len s.
Proof.
  induction s as [|a s IH].
  - unfold len. simpl. lia.
  - rewrite LastIndexByte_cons. unfold len in *. simpl String.length.
    destruct (Z.leb_spec 0 (LastIndexByte s c)); [lia|].
    destruct (Ascii.eqb a c); lia.
Qed.

Lemma LastIndexByte_absent s c :
  LastIndexByte s c < 0 -> forall j, String.get j s <> Some c.
Proof.
  induction s as [|a s IH].
  - intros _ j. destruct j; discriminate.
  - rewrite LastIndexByte_cons.
    destruct (Z.leb_spec 0 (LastIndexByte s c)) as [Hge|Hlt]; [lia|].
    destruct (Ascii.eqb_spec a c) as [->|Hac]; [lia|].
    intros _ [|j]; simpl; [congruence|now apply IH].
Qed.

Lemma LastIndexByte_found s c :
  0 <= LastIndexByte s c ->
  String.get (Z.to_nat (LastIndexByte s c)) s = Some c /\
  forall j, (Z.to_nat (LastIndexByte s c) < j)%nat -> String.get j s <> Some c.
Proof.
  induction s as [|a s IH].
  - simpl. lia.
  - rewrite LastIndexByte_cons.
    destruct (Z.leb_spec 0 (LastIndexByte s c)) as [Hge|Hlt].
    + intros _. destruct (IH Hge) as [Hget Hafter].
      replace (Z.to_nat (LastIndexByte s c + 1))
        with (S (Z.to_nat (LastIndexByte s c))) by lia.
      split; [exact Hget|].
      intros [|j] Hj; [lia|]. simpl. apply Hafter. lia.
    + destruct (Ascii.eqb_spec a c) as [->|Hac]; [|lia].
      intros _. split; [reflexivity|].
      intros [|j] Hj; [lia|]. simpl.
      now apply LastIndexByte_absent.
Qed.

Lemma Contains_spec s substr :
  Contains s substr = true <->
  exists n, substring n (String.length substr) s = substr.
Proof.
  induction s as [|a s IH].
  - cbn [Contains]. rewrite orb_false_r. split.
    + intros H. exists 0%nat. apply prefix_correct. exact H.
    + intros [n H]. apply prefix_correct.
      destruct n; destruct (String.length substr); exact H.
  - cbn [Contains]. rewrite orb_true_iff, IH. split.
    + intros [H|[n H]].
      * exists 0%nat. now apply prefix_correct.
      * exists (S n). exact H.
    + intros [[|n] H].
      * left. now apply prefix_correct.
      * right. exists n. exact H.
Qed.

(** ** The trimming loops terminate within their fuel *)

Lemma length_substring s : forall n m,
  (n + m <= String.length s)%nat -> String.length (substring n m s) = m.
Proof.
  induction s as [|a s IH]; intros [|n] [|m] H; simpl in *;
    try reflexivity; try lia.
  - rewrite (IH 0%nat m); [reflexivity|lia].
  - apply IH. lia.
  - apply IH. lia.
Qed.

Lemma len_slice s lo hi :
  0 <= lo <= hi -> hi <= len s -> len (slice s lo hi) = hi - lo.
Proof.
  unfold len, slice. intros H1 H2. rewrite length_substring; lia.
Qed.

Ltac split_ifs :=
  repeat match goal with
  | |- context [if ?c then _ else _] => destruct c
  | |- context [let '(_, _) := ?p in _] => destruct p
  end.

Lemma DecodeRuneInString_size s :
  1 <= len s -> 1 <= snd (DecodeRuneInString s) <= 4.
Proof.
  intros H. unfold DecodeRuneInString.
  destruct (Z.ltb_spec (len s) 1); [lia|].
  split_ifs; simpl; lia.
Qed.

Lemma scan_start_le fuel s : forall start lim,
  scan_start fuel s start lim <= start.
Proof.
  induction fuel as [|k IH]; intros start lim; simpl; [lia|].
  split_ifs; try lia. specialize (IH (start - 1) lim). lia.
Qed.

Lemma DecodeLastRuneInString_size s :
  1 <= len s -> 1 <= snd (DecodeLastRuneInString s).
Proof.
  intros H. unfold DecodeLastRuneInString.
  destruct (Z.eqb_spec (len s) 0); [lia|].
  destruct (at_ s (len s - 1) <? RuneSelf); [simpl; lia|].
  pose proof (scan_start_le 4 s (len s - 1 - 1) (Z.max 0 (len s - UTFMax))) as Hs.
  destruct (DecodeRuneInString _) as [r size].
  destruct (Z.eqb_spec
              (Z.max 0 (scan_start 4 s (len s - 1 - 1)
                          (Z.max 0 (len s - UTFMax))) + size) (len s));
    simpl; lia.
Qed.

Lemma indexFunc_from_fuel s f truth : forall fuel1 fuel2 i,
  0 <= i ->
  (Z.to_nat (len s - i) <= fuel1)%nat ->
  (Z.to_nat (len s - i) <= fuel2)%nat ->
  indexFunc_from fuel1 s i f truth = indexFunc_from fuel2 s i f truth.
Proof.
  induction fuel1 as [|k IH]; intros fuel2 i Hi H1 H2.
  - destruct fuel2 as [|k2]; [reflexivity|]. simpl.
    destruct (Z.leb_spec (len s) i); [reflexivity|lia].
  - destruct fuel2 as [|k2]; simpl.
    + destruct (Z.leb_spec (len s) i); [reflexivity|lia].
    + destruct (Z.leb_spec (len s) i) as [|Hlt]; [reflexivity|].
      pose proof (DecodeRuneInString_size (slice s i (len s))) as Hsz.
      rewrite len_slice in Hsz by lia.
      destruct (DecodeRuneInString (slice s i (len s))) as [r size].
      simpl in Hsz.
      destruct (Bool.eqb (f r) truth); [reflexivity|].
      apply IH; lia.
Qed.

Lemma lastIndexFunc_from_fuel s f truth : forall fuel1 fuel2 i,
  i <= len s ->
  (Z.to_nat i <= fuel1)%nat ->
  (Z.to_nat i <= fuel2)%nat ->
  lastIndexFunc_from fuel1 s i f truth = lastIndexFunc_from fuel2 s i f truth.
Proof.
  induction fuel1 as [|k IH]; intros fuel2 i Hi H1 H2.
  - destruct fuel2 as [|k2]; [reflexivity|]. simpl.
    destruct (Z.leb_spec i 0); [reflexivity|lia].
  - destruct fuel2 as [|k2]; simpl.
    + destruct (Z.leb_spec i 0); [reflexivity|lia].
    + destruct (Z.leb_spec i 0) as [|Hlt]; [reflexivity|].
      pose proof (DecodeLastRuneInString_size (slice s 0 i)) as Hsz.
      rewrite len_slice in Hsz by lia.
      destruct (DecodeLastRuneInString (slice s 0 i)) as [r size].
      simpl in Hsz.
      destruct (Bool.eqb (f r) truth); [reflexivity|].
      apply IH; lia.
Qed.

(** More fuel than the length of the string changes nothing: the loops of
    [TrimSpace] always run to their own end. *)
Lemma indexFunc_fuel s f truth fuel :
  (String.length s <= fuel)%nat ->
  indexFunc_from fuel s 0 f truth = indexFunc s f truth.
Proof.
  intros H. unfold indexFunc.
  apply indexFunc_from_fuel; unfold len; lia.
Qed.

Lemma lastIndexFunc_fuel s f truth fuel :
  (String.length s <= fuel)%nat ->
  lastIndexFunc_from fuel s (len s) f truth = lastIndexFunc s f truth.
Proof.
  intros H. unfold lastIndexFunc.
  apply lastIndexFunc_from_fuel; unfold len; lia.
Qed.

(** ** What [TrimSpace] removes

    [TrimSpace] is characterised against the encodings of white space:
    its result is the argument without the white space at both ends
    ([TrimSpace_spec]), and no other string is ([trimmed_of_unique]). *)

Lemma land_low b k m : 0 <= k -> m = Z.ones k -> Z.land b m = b mod 2 ^ k.
Proof. intros Hk ->. now apply Z.land_ones. Qed.

Lemma land_low_sub b k m q :
  0 <= k -> m = Z.ones k -> 0 <= b - q * 2 ^ k < 2 ^ k ->
  Z.land b m = b - q * 2 ^ k.
Proof.
  intros Hk Hm Hb. rewrite (land_low b k m Hk Hm).
  symmetry. apply (Z.mod_unique b (2 ^ k) q); [left; exact Hb|lia].
Qed.

Lemma land_mul_small x b k :
  0 <= k -> 0 <= b < 2 ^ k -> Z.land (x * 2 ^ k) b = 0.
Proof.
  intros Hk Hb. rewrite <- Z.shiftl_mul_pow2 by lia.
  apply Z.bits_inj'. intros n Hn. rewrite Z.land_spec, Z.bits_0.
  destruct (Z.lt_ge_cases n k) as [Hlt|Hge].
  - rewrite Z.shiftl_spec_low by lia. reflexivity.
  - replace (Z.testbit b n) with false; [apply andb_false_r|].
    symmetry. destruct (Z.eq_dec b 0) as [->|Hne]; [apply Z.bits_0|].
    apply Z.bits_above_log2; [lia|].
    apply Z.log2_lt_pow2; [lia|].
    apply Z.lt_le_trans with (2 ^ k); [lia|].
    apply Z.pow_le_mono_r; lia.
Qed.

Lemma lor_mul_small x b k :
  0 <= k -> 0 <= b < 2 ^ k -> Z.lor (x * 2 ^ k) b = x * 2 ^ k + b.
Proof.
  intros Hk Hb. pose proof (land_mul_small x b k Hk Hb) as H0.
  rewrite <- (Z.lxor_lor _ _ H0). symmetry. now apply Z.add_nocarry_lxor.
Qed.

Lemma land_cont b : 128 <= b <= 191 -> Z.land b 63 = b - 128.
Proof.
  intros H. apply (land_low_sub b 6 63 2); [lia|reflexivity|].
  change (2 ^ 6) with 64. lia.
Qed.

Lemma land_lead2 b : 192 <= b <= 223 -> Z.land b 31 = b - 192.
Proof.
  intros H. apply (land_low_sub b 5 31 6); [lia|reflexivity|].
  change (2 ^ 5) with 32. lia.
Qed.

Lemma land_lead3 b : 224 <= b <= 239 -> Z.land b 15 = b - 224.
Proof.
  intros H. apply (land_low_sub b 4 15 14); [lia|reflexivity|].
  change (2 ^ 4) with 16. lia.
Qed.

Lemma land_lead4 b : 240 <= b <= 247 -> Z.land b 7 = b - 240.
Proof.
  intros H. apply (land_low_sub b 3 7 30); [lia|reflexivity|].
  change (2 ^ 3) with 8. lia.
Qed.

Lemma rune2_eq b0 b1 :
  192 <= b0 <= 223 -> 128 <= b1 <= 191 ->
  Z.lor (Z.shiftl (Z.land b0 31) 6) (Z.land b1 63) = rune2 b0 b1.
Proof.
  intros H0 H1. rewrite land_lead2, land_cont by assumption.
  rewrite Z.shiftl_mul_pow2 by lia.
  rewrite lor_mul_small; [unfold rune2; lia | lia | change (2 ^ 6) with 64; lia].
Qed.

Lemma rune3_eq b0 b1 b2 :
  224 <= b0 <= 239 -> 128 <= b1 <= 191 -> 128 <= b2 <= 191 ->
  Z.lor (Z.lor (Z.shiftl (Z.land b0 15) 12) (Z.shiftl (Z.land b1 63) 6))
        (Z.land b2 63) = rune3 b0 b1 b2.
Proof.
  intros H0 H1 H2. rewrite land_lead3, !land_cont by assumption.
  rewrite !Z.shiftl_mul_pow2 by lia.
  rewrite (lor_mul_small (b0 - 224) ((b1 - 128) * 2 ^ 6) 12)
    by (change (2 ^ 6) with 64; change (2 ^ 12) with 4096; lia).
  replace ((b0 - 224) * 2 ^ 12 + (b1 - 128) * 2 ^ 6)
    with (((b0 - 224) * 64 + (b1 - 128)) * 2 ^ 6)
    by (change (2 ^ 6) with 64; change (2 ^ 12) with 4096; lia).
  rewrite lor_mul_small by (change (2 ^ 6) with 64; lia).
  unfold rune3. change (2 ^ 6) with 64. lia.
Qed.

Lemma rune4_eq b0 b1 b2 b3 :
  240 <= b0 <= 247 -> 128 <= b1 <= 191 -> 128 <= b2 <= 191 ->
  128 <= b3 <= 191 ->
  Z.lor (Z.lor (Z.lor (Z.shiftl (Z.land b0 7) 18)
                      (Z.shiftl (Z.land b1 63) 12))
               (Z.shiftl (Z.land b2 63) 6))
        (Z.land b3 63) = rune4 b0 b1 b2 b3.
Proof.
  intros H0 H1 H2 H3. rewrite land_lead4, !land_cont by assumption.
  rewrite !Z.shiftl_mul_pow2 by lia.
  rewrite (lor_mul_small (b0 - 240) ((b1 - 128) * 2 ^ 12) 18)
    by (change (2 ^ 12) with 4096; change (2 ^ 18) with 262144; lia).
  replace ((b0 - 240) * 2 ^ 18 + (b1 - 128) * 2 ^ 12)
    with (((b0 - 240) * 64 + (b1 - 128)) * 2 ^ 12)
    by (change (2 ^ 12) with 4096; change (2 ^ 18) with 262144; lia).
  rewrite (lor_mul_small _ ((b2 - 128) * 2 ^ 6) 12)
    by (change (2 ^ 6) with 64; change (2 ^ 12) with 4096; lia).
  replace (((b0 - 240) * 64 + (b1 - 128)) * 2 ^ 12 + (b2 - 128) * 2 ^ 6)
    with ((((b0 - 240) * 64 + (b1 - 128)) * 64 + (b2 - 128)) * 2 ^ 6)
    by (change (2 ^ 6) with 64; change (2 ^ 12) with 4096; lia).
  rewrite lor_mul_small by (change (2 ^ 6) with 64; lia).
  unfold rune4. change (2 ^ 6) with 64. lia.
Qed.

Ltac pick_case :=
  first [ solve [repeat split; (lia || reflexivity)]
        | left; pick_case
        | right; pick_case ].

Lemma first_cases b :
  0 <= b < 256 ->
  (b < 128 /\ first b = 240) \/
  ((128 <= b < 194 \/ 245 <= b) /\ first b = 241) \/
  (194 <= b < 224 /\ first b = 2) \/
  (b = 224 /\ first b = 19) \/
  ((225 <= b < 237 \/ 238 <= b < 240) /\ first b = 3) \/
  (b = 237 /\ first b = 35) \/
  (b = 240 /\ first b = 52) \/
  (241 <= b < 244 /\ first b = 4) \/
  (b = 244 /\ first b = 68).
Proof.
  intros Hb. unfold first, as_, xx.
  repeat match goal with
  | |- context [?a <? ?c] => destruct (Z.ltb_spec a c)
  | |- context [?a =? ?c] => destruct (Z.eqb_spec a c)
  end; pick_case.
Qed.

Ltac split_tests :=
  repeat match goal with
  | |- context [?a <? ?c] => destruct (Z.ltb_spec a c)
  | |- context [?a <=? ?c] => destruct (Z.leb_spec a c)
  | |- context [?a =? ?c] => destruct (Z.eqb_spec a c)
  end.

Lemma decode4_cases n b0 b1 b2 b3 :
  1 <= n -> 0 <= b0 < 256 ->
  (b0 < 128 /\ decode4 n b0 b1 b2 b3 = (b0, 1)) \/
  (2 <= n /\ two_ok b0 b1 /\ decode4 n b0 b1 b2 b3 = (rune2 b0 b1, 2)) \/
  (3 <= n /\ three_ok b0 b1 b2 /\
   decode4 n b0 b1 b2 b3 = (rune3 b0 b1 b2, 3)) \/
  (4 <= n /\ four_ok b0 b1 b2 b3 /\
   decode4 n b0 b1 b2 b3 = (rune4 b0 b1 b2 b3, 4)) \/
  (128 <= b0 /\ decode4 n b0 b1 b2 b3 = (RuneError, 1)).
Proof.
  intros Hn Hb. unfold decode4.
  set (e2 := Z.lor (Z.shiftl (Z.land b0 31) 6) (Z.land b1 63)).
  set (e3 := Z.lor (Z.lor (Z.shiftl (Z.land b0 15) 12)
                          (Z.shiftl (Z.land b1 63) 6)) (Z.land b2 63)).
  set (e4 := Z.lor (Z.lor (Z.lor (Z.shiftl (Z.land b0 7) 18)
                                 (Z.shiftl (Z.land b1 63) 12))
                          (Z.shiftl (Z.land b2 63) 6)) (Z.land b3 63)).
  destruct (Z.ltb_spec n 1) as [|_]; [lia|].
  destruct (first_cases b0 Hb)
    as [[H Hf]|[[H Hf]|[[H Hf]|[[H Hf]|[[H Hf]|[[H Hf]|[[H Hf]|[[H Hf]|[H Hf]]]]]]]]];
    rewrite Hf; cbv [as_ xx locb hicb acceptRanges RuneError]; cbn;
    split_tests; cbn [orb];
    first
      [ left; split; [lia|reflexivity]
      | do 4 right; split; [lia|reflexivity]
      | right; left; split; [lia|];
        split; [unfold two_ok; lia|];
        unfold e2; rewrite rune2_eq by lia; reflexivity
      | do 2 right; left; split; [lia|];
        split; [unfold three_ok; lia|];
        unfold e3; rewrite rune3_eq by lia; reflexivity
      | do 3 right; left; split; [lia|];
        split; [unfold four_ok; lia|];
        unfold e4; rewrite rune4_eq by lia; reflexivity ].
Qed.

Lemma decode4_one n b0 b1 b2 b3 :
  1 <= n -> 0 <= b0 < 128 -> decode4 n b0 b1 b2 b3 = (b0, 1).
Proof.
  intros Hn Hb.
  destruct (decode4_cases n b0 b1 b2 b3 Hn)
    as [[_ H]|[(_ & Hok & _)|[(_ & Hok & _)|[(_ & Hok & _)|[Hc _]]]]];
    [lia | exact H | | | | ];
    try (unfold two_ok, three_ok, four_ok in Hok); exfalso; lia.
Qed.

Ltac decode4_direct :=
  unfold decode4;
  set (e2 := Z.lor (Z.shiftl (Z.land _ 31) 6) (Z.land _ 63));
  set (e3 := Z.lor (Z.lor (Z.shiftl (Z.land _ 15) 12)
                          (Z.shiftl (Z.land _ 63) 6)) (Z.land _ 63));
  set (e4 := Z.lor (Z.lor (Z.lor (Z.shiftl (Z.land _ 7) 18)
                                 (Z.shiftl (Z.land _ 63) 12))
                          (Z.shiftl (Z.land _ 63) 6)) (Z.land _ 63));
  match goal with
  | |- context [first ?b0] =>
      let Hf := fresh "Hf" in
      let H := fresh "H" in
      destruct (first_cases b0)
        as [[H Hf]|[[H Hf]|[[H Hf]|[[H Hf]|[[H Hf]|[[H Hf]|[[H Hf]|[[H Hf]|[H Hf]]]]]]]]];
      [lia | .. ]; rewrite Hf
  end;
  cbv [as_ xx locb hicb acceptRanges RuneError]; cbn;
  split_tests; cbn [orb]; try (exfalso; lia).

Lemma decode4_two n b0 b1 b2 b3 :
  2 <= n -> two_ok b0 b1 -> decode4 n b0 b1 b2 b3 = (rune2 b0 b1, 2).
Proof.
  intros Hn Hok. unfold two_ok in Hok.
  decode4_direct;
    unfold e2; rewrite rune2_eq by lia; reflexivity.
Qed.

Lemma decode4_three n b0 b1 b2 b3 :
  3 <= n -> three_ok b0 b1 b2 ->
  decode4 n b0 b1 b2 b3 = (rune3 b0 b1 b2, 3).
Proof.
  intros Hn Hok. unfold three_ok in Hok.
  decode4_direct;
    unfold e3; rewrite rune3_eq by lia; reflexivity.
Qed.

Lemma decode4_four n b0 b1 b2 b3 :
  4 <= n -> four_ok b0 b1 b2 b3 ->
  decode4 n b0 b1 b2 b3 = (rune4 b0 b1 b2 b3, 4).
Proof.
  intros Hn Hok. unfold four_ok in Hok.
  decode4_direct;
    unfold e4; rewrite rune4_eq by lia; reflexivity.
Qed.

Lemma byte_range a : 0 <= byte a < 256.
Proof.
  unfold byte. pose proof (N_ascii_bounded a). lia.
Qed.

Lemma byte_inj a c : byte a = byte c -> a = c.
Proof.
  unfold byte. intros H. apply N2Z.inj in H.
  rewrite <- (ascii_N_embedding a), <- (ascii_N_embedding c). now rewrite H.
Qed.

Lemma len_String a s : len (String a s) = 1 + len s.
Proof. unfold len. simpl String.length. lia. Qed.

Lemma len_app a b : len (a ++ b)%string = len a + len b.
Proof.
  induction a as [|c a IH]; [reflexivity|].
  simpl append. rewrite !len_String, IH. lia.
Qed.

Lemma len_empty s : len s = 0 -> s = "".
Proof. destruct s; [reflexivity|]. rewrite len_String. pose proof (len_nonneg s). lia. Qed.

Lemma app_assoc_s (a b c : string) : ((a ++ b) ++ c = a ++ (b ++ c))%string.
Proof. induction a as [|x a IH]; simpl; [reflexivity|now rewrite IH]. Qed.

Lemma app_nil_r_s (a : string) : (a ++ "")%string = a.
Proof. induction a as [|x a IH]; simpl; [reflexivity|now rewrite IH]. Qed.

Lemma app_inv_len (a b c d : string) :
  (a ++ b = c ++ d)%string -> len b = len d -> a = c /\ b = d.
Proof.
  revert c. induction a as [|x a IH]; intros [|y c] H Hl; simpl in H.
  - now split.
  - subst b. rewrite len_String, len_app in Hl. pose proof (len_nonneg c). lia.
  - subst d. rewrite len_String, len_app in Hl. pose proof (len_nonneg a). lia.
  - injection H as -> H. destruct (IH c H Hl) as [-> ->]. now split.
Qed.

Lemma at_0 a s : at_ (String a s) 0 = byte a.
Proof. reflexivity. Qed.

Lemma at_S a s i : 0 <= i -> at_ (String a s) (i + 1) = at_ s i.
Proof.
  intros Hi. unfold at_.
  replace (Z.to_nat (i + 1)) with (S (Z.to_nat i)) by lia. reflexivity.
Qed.

Lemma at_range s i : 0 <= at_ s i < 256.
Proof.
  unfold at_. destruct (String.get (Z.to_nat i) s) as [a|]; [apply byte_range|lia].
Qed.

Lemma at_app_l p u i :
  0 <= i < len p -> at_ (p ++ u)%string i = at_ p i.
Proof.
  intros Hi. unfold at_, len in *.
  rewrite <- append_correct1 by lia. reflexivity.
Qed.

Lemma at_app_r p u j :
  0 <= j -> at_ (p ++ u)%string (len p + j) = at_ u j.
Proof.
  intros Hj. unfold at_, len.
  replace (Z.to_nat (Z.of_nat (String.length p) + j))
    with (Z.to_nat j + String.length p)%nat by lia.
  now rewrite <- append_correct2.
Qed.

Lemma substring_app_r p u :
  substring (String.length p) (String.length u) (p ++ u) = u.
Proof.
  induction p as [|a p IH]; simpl; [apply substring_0_length|exact IH].
Qed.

Lemma substring_app_l p u :
  substring 0 (String.length p) (p ++ u) = p.
Proof.
  induction p as [|a p IH]; simpl.
  - destruct u; reflexivity.
  - now rewrite IH.
Qed.

Lemma slice_app_r p u : slice (p ++ u) (len p) (len (p ++ u)) = u.
Proof.
  unfold slice. rewrite len_app. unfold len.
  replace (Z.to_nat (Z.of_nat (String.length p))) with (String.length p) by lia.
  replace (Z.to_nat (Z.of_nat (String.length p) + Z.of_nat (String.length u)
                     - Z.of_nat (String.length p)))
    with (String.length u) by lia.
  apply substring_app_r.
Qed.

Lemma slice_app_l p u : slice (p ++ u) 0 (len p) = p.
Proof.
  unfold slice, len.
  replace (Z.to_nat (Z.of_nat (String.length p) - 0)) with (String.length p) by lia.
  apply substring_app_l.
Qed.

(** Every string splits at every index within it. *)
Lemma split_at s i :
  0 <= i <= len s ->
  exists p u, s = (p ++ u)%string /\ len p = i.
Proof.
  intros Hi. exists (substring 0 (Z.to_nat i) s),
    (substring (Z.to_nat i) (String.length s - Z.to_nat i) s).
  split; [apply substring_split|].
  unfold len in *. rewrite length_substring_0. lia.
Qed.

Lemma IsSpace_true r :
  IsSpace r = true ->
  r = 9 \/ r = 10 \/ r = 11 \/ r = 12 \/ r = 13 \/ r = 32 \/ r = 133 \/
  r = 160 \/ r = 5760 \/ 8192 <= r <= 8202 \/ r = 8232 \/ r = 8233 \/
  r = 8239 \/ r = 8287 \/ r = 12288.
Proof.
  unfold IsSpace. split_tests; cbn [orb andb]; intros Hs;
    try discriminate; lia.
Qed.

Lemma Decode_eq s :
  DecodeRuneInString s =
    decode4 (len s) (at_ s 0) (at_ s 1) (at_ s 2) (at_ s 3).
Proof. reflexivity. Qed.

Lemma at_1 a s : at_ (String a s) 1 = at_ s 0.
Proof. reflexivity. Qed.
Lemma at_2 a s : at_ (String a s) 2 = at_ s 1.
Proof. reflexivity. Qed.
Lemma at_3 a s : at_ (String a s) 3 = at_ s 2.
Proof. reflexivity. Qed.

Ltac bytes_of_head :=
  repeat rewrite ?at_3, ?at_2, ?at_1, ?at_0;
  repeat match goal with
  | |- context [byte ?c] =>
      let v := eval vm_compute in (byte c) in change (byte c) with v
  end.

Lemma Decode_space_encoding e rest :
  In e space_encodings ->
  exists r, DecodeRuneInString (e ++ rest) = (r, len e) /\ IsSpace r = true.
Proof.
  intros H. pose proof (len_nonneg rest) as Hl.
  simpl in H.
  repeat (destruct H as [<-|H]); try contradiction;
    rewrite Decode_eq; simpl append; rewrite ?len_String;
    bytes_of_head;
    first [ rewrite decode4_one by lia
          | rewrite decode4_two by (unfold two_ok; lia)
          | rewrite decode4_three by (unfold three_ok; lia) ];
    eexists; split; reflexivity.
Qed.

Lemma space_rune1 b :
  0 <= b < 128 -> IsSpace b = true ->
  b = 9 \/ b = 10 \/ b = 11 \/ b = 12 \/ b = 13 \/ b = 32.
Proof. intros Hb H. apply IsSpace_true in H. lia. Qed.

Lemma space_rune2 b0 b1 :
  two_ok b0 b1 -> IsSpace (rune2 b0 b1) = true ->
  b0 = 194 /\ (b1 = 133 \/ b1 = 160).
Proof.
  intros Hok H. apply IsSpace_true in H. unfold two_ok, rune2 in *.
  repeat (destruct H as [H|H]); try (exfalso; lia); lia.
Qed.

Lemma space_rune3 b0 b1 b2 :
  three_ok b0 b1 b2 -> IsSpace (rune3 b0 b1 b2) = true ->
  (b0 = 225 /\ b1 = 154 /\ b2 = 128) \/
  (b0 = 226 /\ b1 = 128 /\
   (128 <= b2 <= 138 \/ b2 = 168 \/ b2 = 169 \/ b2 = 175)) \/
  (b0 = 226 /\ b1 = 129 /\ b2 = 159) \/
  (b0 = 227 /\ b1 = 128 /\ b2 = 128).
Proof.
  intros Hok H. apply IsSpace_true in H. unfold three_ok, rune3 in *.
  repeat (destruct H as [H|H]); try (exfalso; lia).
  - left. lia.
  - right; left. lia.
  - right; left. lia.
  - right; left. lia.
  - right; left. lia.
  - right; right; left. lia.
  - right; right; right. lia.
Qed.

Lemma space_rune4 b0 b1 b2 b3 :
  four_ok b0 b1 b2 b3 -> IsSpace (rune4 b0 b1 b2 b3) = false.
Proof.
  intros Hok. destruct (IsSpace (rune4 b0 b1 b2 b3)) eqn:H; [|reflexivity].
  apply IsSpace_true in H. unfold four_ok, rune4 in *.
  assert (65536 <= (b0 - 240) * 262144 + (b1 - 128) * 4096 +
                   (b2 - 128) * 64 + (b3 - 128)) by lia.
  exfalso. lia.
Qed.

Lemma byte_eq_ascii a v : byte a = v -> a = ascii_of_N (Z.to_N v).
Proof.
  intros <-. unfold byte. rewrite N2Z.id. symmetry. apply ascii_N_embedding.
Qed.

Lemma head1 s : 1 <= len s -> exists a rest, s = String a rest.
Proof.
  destruct s as [|a rest]; [unfold len; simpl; lia|]. eauto.
Qed.

Lemma head2 s :
  2 <= len s -> exists a0 a1 rest, s = String a0 (String a1 rest).
Proof.
  intros H. destruct (head1 s) as (a0 & s1 & ->); [lia|].
  rewrite len_String in H.
  destruct (head1 s1) as (a1 & s2 & ->); [lia|]. eauto.
Qed.

Lemma head3 s :
  3 <= len s ->
  exists a0 a1 a2 rest, s = String a0 (String a1 (String a2 rest)).
Proof.
  intros H. destruct (head2 s) as (a0 & a1 & s2 & ->); [lia|].
  rewrite !len_String in H.
  destruct (head1 s2) as (a2 & s3 & ->); [lia|]. eauto 6.
Qed.

Ltac name_bytes :=
  repeat match goal with
  | H : byte ?a = _ |- _ =>
      is_var a; apply byte_eq_ascii in H; cbv in H; subst a
  end.

Ltac in_encodings :=
  cbv [space_encodings In]; repeat (first [left; reflexivity | right]).

(** A rune that is white space is decoded from its encoding only. *)
Lemma Decode_space_inv s r w :
  DecodeRuneInString s = (r, w) -> IsSpace r = true ->
  exists e rest,
    In e space_encodings /\ s = (e ++ rest)%string /\ len e = w.
Proof.
  intros Hd Hs. rewrite Decode_eq in Hd.
  destruct (Z.lt_ge_cases (len s) 1) as [Hn|Hn].
  { unfold decode4 in Hd. destruct (Z.ltb_spec (len s) 1); [|lia].
    injection Hd as <- <-. discriminate Hs. }
  destruct (decode4_cases (len s) (at_ s 0) (at_ s 1) (at_ s 2) (at_ s 3)
              Hn (at_range s 0))
    as [[Hb H]|[(Hl & Hok & H)|[(Hl & Hok & H)|[(Hl & Hok & H)|[Hb H]]]]];
    rewrite H in Hd; injection Hd as <- <-.
  - pose proof (space_rune1 _ (conj (proj1 (at_range s 0)) Hb) Hs) as Hv.
    destruct (head1 s Hn) as (a0 & rest & ->). rewrite at_0 in Hv.
    exists (String a0 ""), rest. split; [|split; reflexivity].
    destruct Hv as [Hv|[Hv|[Hv|[Hv|[Hv|Hv]]]]]; name_bytes; in_encodings.
  - destruct (space_rune2 _ _ Hok Hs) as [H0 H1].
    destruct (head2 s Hl) as (a0 & a1 & rest & ->).
    rewrite at_0 in H0. rewrite !at_1, !at_0 in H1.
    exists (String a0 (String a1 "")), rest. split; [|split; reflexivity].
    destruct H1 as [H1|H1]; name_bytes; in_encodings.
  - pose proof (space_rune3 _ _ _ Hok Hs) as Hv.
    destruct (head3 s Hl) as (a0 & a1 & a2 & rest & ->).
    repeat (progress rewrite ?at_2, ?at_1, ?at_0 in Hv).
    exists (String a0 (String a1 (String a2 ""))), rest.
    split; [|split; reflexivity].
    destruct Hv as [(H0 & H1 & H2)|[(H0 & H1 & H2)|[(H0 & H1 & H2)|(H0 & H1 & H2)]]].
    + name_bytes; in_encodings.
    + assert (H2' : byte a2 = 128 \/ byte a2 = 129 \/ byte a2 = 130 \/
                    byte a2 = 131 \/ byte a2 = 132 \/ byte a2 = 133 \/
                    byte a2 = 134 \/ byte a2 = 135 \/ byte a2 = 136 \/
                    byte a2 = 137 \/ byte a2 = 138 \/ byte a2 = 168 \/
                    byte a2 = 169 \/ byte a2 = 175) by lia.
      clear H2.
      repeat (destruct H2' as [H2'|H2']); name_bytes; in_encodings.
    + name_bytes; in_encodings.
    + name_bytes; in_encodings.
  - rewrite (space_rune4 _ _ _ _ Hok) in Hs. discriminate.
  - discriminate Hs.
Qed.

(** A decoded sequence of two bytes or more, or an ASCII byte, decodes
    the same with anything after it. *)
Lemma Decode_app u v r w :
  DecodeRuneInString u = (r, w) ->
  2 <= w \/ (1 <= len u /\ at_ u 0 < 128) ->
  DecodeRuneInString (u ++ v) = (r, w).
Proof.
  intros Hd Hw. rewrite Decode_eq in Hd.
  pose proof (len_nonneg v) as Hv.
  destruct (Z.lt_ge_cases (len u) 1) as [Hn|Hn].
  { unfold decode4 in Hd. destruct (Z.ltb_spec (len u) 1); [|lia].
    injection Hd as <- <-. lia. }
  destruct (decode4_cases (len u) (at_ u 0) (at_ u 1) (at_ u 2) (at_ u 3)
              Hn (at_range u 0))
    as [[Hb H]|[(Hl & Hok & H)|[(Hl & Hok & H)|[(Hl & Hok & H)|[Hb H]]]]];
    rewrite H in Hd; injection Hd as <- <-; rewrite Decode_eq, len_app.
  - rewrite (at_app_l u v 0) by lia.
    apply decode4_one; [lia|]. pose proof (at_range u 0). lia.
  - rewrite (at_app_l u v 0), (at_app_l u v 1) by lia.
    apply decode4_two; [lia|exact Hok].
  - rewrite (at_app_l u v 0), (at_app_l u v 1), (at_app_l u v 2) by lia.
    apply decode4_three; [lia|exact Hok].
  - rewrite (at_app_l u v 0), (at_app_l u v 1), (at_app_l u v 2),
      (at_app_l u v 3) by lia.
    apply decode4_four; [lia|exact Hok].
  - lia.
Qed.

(** A byte of 128 or more that no continuation byte follows is decoded
    alone. *)
Lemma Decode_lone a v :
  128 <= byte a ->
  v = "" \/ at_ v 0 < 128 \/ 192 <= at_ v 0 ->
  snd (DecodeRuneInString (String a v)) = 1.
Proof.
  intros Ha Hv. rewrite Decode_eq.
  set (s := String a v).
  assert (Hn : 1 <= len s)
    by (unfold s; rewrite len_String; pose proof (len_nonneg v); lia).
  assert (H1 : at_ s 1 = at_ v 0) by reflexivity.
  assert (H0 : at_ s 0 = byte a) by reflexivity.
  assert (Hlen : len s = 1 + len v) by apply len_String.
  destruct (decode4_cases (len s) (at_ s 0) (at_ s 1) (at_ s 2) (at_ s 3)
              Hn (at_range s 0))
    as [[Hb H]|[(Hl & Hok & H)|[(Hl & Hok & H)|[(Hl & Hok & H)|[Hb H]]]]];
    rewrite H; try reflexivity; exfalso.
  - unfold two_ok in Hok. destruct Hv as [->|Hv]; [unfold len in *; simpl in *; lia|lia].
  - unfold three_ok in Hok. destruct Hv as [->|Hv]; [unfold len in *; simpl in *; lia|lia].
  - unfold four_ok in Hok. destruct Hv as [->|Hv]; [unfold len in *; simpl in *; lia|lia].
Qed.

Lemma encoding_len e : In e space_encodings -> 1 <= len e <= 3.
Proof.
  intros H. simpl in H.
  repeat (destruct H as [<-|H]); try contradiction; vm_compute; split; discriminate.
Qed.

Lemma encoding_head e s :
  In e space_encodings ->
  at_ (e ++ s) 0 < 128 \/ 192 <= at_ (e ++ s) 0.
Proof.
  intros H. simpl in H.
  repeat (destruct H as [<-|H]); try contradiction;
    simpl append; bytes_of_head; lia.
Qed.

Lemma white_head z :
  white_space z -> z = "" \/ at_ z 0 < 128 \/ 192 <= at_ z 0.
Proof.
  intros [|e s He _]; [now left|right]. now apply encoding_head.
Qed.

Lemma white_app a b : white_space a -> white_space b -> white_space (a ++ b).
Proof.
  intros Ha Hb. induction Ha as [|e s He _ IH]; [exact Hb|].
  rewrite app_assoc_s. now constructor.
Qed.

Lemma white_one e : In e space_encodings -> white_space e.
Proof.
  intros H. rewrite <- (app_nil_r_s e). constructor; [exact H|constructor].
Qed.

Lemma RuneStart_ascii a :
  RuneStart (byte a) = negb ((128 <=? byte a) && (byte a <=? 191)).
Proof.
  destruct a as [[] [] [] [] [] [] [] []]; vm_compute; reflexivity.
Qed.

Lemma RuneStart_byte b :
  0 <= b < 256 -> RuneStart b = negb ((128 <=? b) && (b <=? 191)).
Proof.
  intros Hb.
  assert (E : b = byte (ascii_of_N (Z.to_N b))).
  { unfold byte. rewrite N_ascii_embedding by lia. lia. }
  rewrite E. apply RuneStart_ascii.
Qed.

(** [DecodeLastRuneInString] takes its rune from the end of the string:
    an ASCII byte, a byte it cannot decode, or a sequence that
    [DecodeRuneInString] decodes whole. *)
Lemma DecodeLast_split x r size :
  1 <= len x ->
  DecodeLastRuneInString x = (r, size) ->
  exists q m,
    x = (q ++ m)%string /\ len m = size /\ 1 <= size /\
    ((at_ m 0 < 128 /\ r = at_ m 0 /\ size = 1) \/
     (128 <= at_ m 0 /\ size = 1 /\ r = RuneError) \/
     DecodeRuneInString m = (r, size)).
Proof.
  intros Hn H. unfold DecodeLastRuneInString in H.
  destruct (Z.eqb_spec (len x) 0) as [|_]; [lia|].
  destruct (split_at x (len x - 1)) as (q1 & m1 & Hx1 & Hq1); [lia|].
  assert (Hm1 : len m1 = 1) by (rewrite Hx1, len_app in Hq1; lia).
  assert (Hlast : at_ x (len x - 1) = at_ m1 0).
  { rewrite Hx1 at 1. replace (len x - 1) with (len q1 + 0) by lia.
    apply at_app_r. lia. }
  rewrite Hlast in H. unfold RuneSelf in H.
  destruct (Z.ltb_spec (at_ m1 0) 128) as [Hlt|Hge].
  - injection H as <- <-. exists q1, m1. repeat split; auto; lia.
  - set (st := Z.max 0 (scan_start 4 x (len x - 1 - 1)
                          (Z.max 0 (len x - UTFMax)))) in *.
    assert (Hst : 0 <= st <= len x - 1).
    { unfold st.
      pose proof (scan_start_le 4 x (len x - 1 - 1) (Z.max 0 (len x - UTFMax))).
      lia. }
    destruct (split_at x st) as (q & m & Hx & Hq); [lia|].
    assert (Hm : len m = len x - st) by (rewrite Hx, len_app in *; lia).
    assert (Hsl : slice x st (len x) = m).
    { rewrite Hx, <- Hq. apply slice_app_r. }
    rewrite Hsl in H.
    destruct (DecodeRuneInString m) as [r' size'] eqn:Hd.
    pose proof (DecodeRuneInString_size m) as Hsz. rewrite Hd in Hsz.
    simpl in Hsz.
    destruct (Z.eqb_spec (st + size') (len x)) as [He|Hne]; cbn [negb] in H;
      injection H as <- <-.
    + exists q, m. repeat split; auto; lia.
    + exists q1, m1. repeat split; auto; try lia.
Qed.

Lemma DecodeLast_ascii q c :
  byte c < 128 -> DecodeLastRuneInString (q ++ String c "") = (byte c, 1).
Proof.
  intros Hc. unfold DecodeLastRuneInString.
  pose proof (len_nonneg q) as Hq.
  rewrite len_app, len_String. change (len "") with 0.
  destruct (Z.eqb_spec (len q + (1 + 0)) 0) as [|_]; [lia|].
  replace (len q + (1 + 0) - 1) with (len q + 0) by lia.
  rewrite at_app_r by lia. rewrite at_0. unfold RuneSelf.
  destruct (Z.ltb_spec (byte c) 128); [reflexivity|lia].
Qed.

Lemma scan_start_here fuel x start lim :
  lim <= start -> RuneStart (at_ x start) = true ->
  scan_start (S fuel) x start lim = start.
Proof.
  intros Hl Hr. simpl. destruct (Z.ltb_spec start lim); [lia|].
  now rewrite Hr.
Qed.

Lemma scan_start_next fuel x start lim :
  lim <= start -> RuneStart (at_ x start) = false ->
  scan_start (S fuel) x start lim = scan_start fuel x (start - 1) lim.
Proof.
  intros Hl Hr. simpl. destruct (Z.ltb_spec start lim); [lia|].
  now rewrite Hr.
Qed.

Lemma RuneStart_lead b : 192 <= b < 256 -> RuneStart b = true.
Proof.
  intros Hb. rewrite RuneStart_byte by lia.
  destruct (Z.leb_spec b 191); [lia|]. now rewrite andb_false_r.
Qed.

Lemma RuneStart_cont b : 128 <= b <= 191 -> RuneStart b = false.
Proof.
  intros Hb. rewrite RuneStart_byte by lia.
  destruct (Z.leb_spec 128 b); [|lia].
  destruct (Z.leb_spec b 191); [reflexivity|lia].
Qed.

Lemma DecodeLast_two q c0 c1 :
  two_ok (byte c0) (byte c1) ->
  DecodeLastRuneInString (q ++ String c0 (String c1 "")) =
    (rune2 (byte c0) (byte c1), 2).
Proof.
  intros Hok. pose proof Hok as Hok'. unfold two_ok in Hok'.
  unfold DecodeLastRuneInString.
  pose proof (len_nonneg q) as Hq.
  set (e := String c0 (String c1 "")).
  assert (Hle : len (q ++ e) = len q + 2) by (rewrite len_app; reflexivity).
  rewrite Hle.
  destruct (Z.eqb_spec (len q + 2) 0) as [|_]; [lia|].
  replace (len q + 2 - 1) with (len q + 1) by lia.
  rewrite (at_app_r q e 1) by lia.
  change (at_ e 1) with (byte c1). unfold RuneSelf, UTFMax.
  destruct (Z.ltb_spec (byte c1) 128); [lia|].
  replace (len q + 1 - 1) with (len q + 0) by lia.
  rewrite scan_start_here;
    [ | lia | rewrite (at_app_r q e 0) by lia; apply RuneStart_lead;
              change (at_ e 0) with (byte c0); lia ].
  replace (Z.max 0 (len q + 0)) with (len q) by lia.
  assert (Hd : DecodeRuneInString e = (rune2 (byte c0) (byte c1), 2)).
  { unfold e. rewrite Decode_eq, !len_String, at_0, at_1, at_0.
    apply decode4_two; [change (len "") with 0; lia|exact Hok]. }
  rewrite <- Hle, slice_app_r, Hle, Hd.
  destruct (Z.eqb_spec (len q + 2) (len q + 2)); [reflexivity|lia].
Qed.

Lemma DecodeLast_three q c0 c1 c2 :
  three_ok (byte c0) (byte c1) (byte c2) ->
  DecodeLastRuneInString (q ++ String c0 (String c1 (String c2 ""))) =
    (rune3 (byte c0) (byte c1) (byte c2), 3).
Proof.
  intros Hok. pose proof Hok as Hok'. unfold three_ok in Hok'.
  unfold DecodeLastRuneInString.
  pose proof (len_nonneg q) as Hq.
  set (e := String c0 (String c1 (String c2 ""))).
  assert (Hle : len (q ++ e) = len q + 3) by (rewrite len_app; reflexivity).
  rewrite Hle.
  destruct (Z.eqb_spec (len q + 3) 0) as [|_]; [lia|].
  replace (len q + 3 - 1) with (len q + 2) by lia.
  rewrite (at_app_r q e 2) by lia.
  change (at_ e 2) with (byte c2). unfold RuneSelf, UTFMax.
  destruct (Z.ltb_spec (byte c2) 128); [lia|].
  replace (len q + 2 - 1) with (len q + 1) by lia.
  rewrite scan_start_next;
    [ | lia | rewrite (at_app_r q e 1) by lia; apply RuneStart_cont;
              change (at_ e 1) with (byte c1); lia ].
  replace (len q + 1 - 1) with (len q + 0) by lia.
  rewrite scan_start_here;
    [ | lia | rewrite (at_app_r q e 0) by lia; apply RuneStart_lead;
              change (at_ e 0) with (byte c0); lia ].
  replace (Z.max 0 (len q + 0)) with (len q) by lia.
  assert (Hd : DecodeRuneInString e =
               (rune3 (byte c0) (byte c1) (byte c2), 3)).
  { unfold e. rewrite Decode_eq, !len_String, at_0, at_1, at_0, at_2, at_1, at_0.
    apply decode4_three; [change (len "") with 0; lia|exact Hok]. }
  rewrite <- Hle, slice_app_r, Hle, Hd.
  destruct (Z.eqb_spec (len q + 3) (len q + 3)); [reflexivity|lia].
Qed.

Ltac eval_bytes :=
  repeat match goal with
  | |- context [byte ?c] =>
      let v := eval vm_compute in (byte c) in change (byte c) with v
  end.

Lemma DecodeLast_space_encoding q e :
  In e space_encodings ->
  exists r, DecodeLastRuneInString (q ++ e) = (r, len e) /\ IsSpace r = true.
Proof.
  intros H. simpl in H.
  repeat (destruct H as [<-|H]); try contradiction;
    first [ rewrite DecodeLast_ascii by (eval_bytes; lia)
          | rewrite DecodeLast_two by (unfold two_ok; eval_bytes; lia)
          | rewrite DecodeLast_three by (unfold three_ok; eval_bytes; lia) ];
    eexists; split; reflexivity.
Qed.

Lemma app_same_len (e rest : string) : len e = len (e ++ rest) -> rest = "".
Proof.
  rewrite len_app. intros H. apply len_empty. lia.
Qed.

Lemma DecodeLast_space_inv p r size :
  1 <= len p ->
  DecodeLastRuneInString p = (r, size) -> IsSpace r = true ->
  exists q e, p = (q ++ e)%string /\ In e space_encodings /\ len e = size.
Proof.
  intros Hn Hd Hs.
  destruct (DecodeLast_split p r size Hn Hd)
    as (q & m & Hp & Hm & Hsz & [(Hlt & Hr & H1)|[(Hge & H1 & Hr)|Hdm]]).
  - assert (Hdm : DecodeRuneInString m = (r, size)).
    { rewrite Decode_eq, Hr, H1. apply decode4_one; [lia|].
      pose proof (at_range m 0). lia. }
    destruct (Decode_space_inv m r size Hdm Hs) as (e & rest & He & Hme & Hl).
    assert (rest = "") by (apply (app_same_len e); rewrite <- Hme; lia).
    subst rest. rewrite app_nil_r_s in Hme. subst m. now exists q, e.
  - subst r. discriminate Hs.
  - destruct (Decode_space_inv m r size Hdm Hs) as (e & rest & He & Hme & Hl).
    assert (rest = "") by (apply (app_same_len e); rewrite <- Hme; lia).
    subst rest. rewrite app_nil_r_s in Hme. subst m. now exists q, e.
Qed.

(** The forward loop: from the byte after [p] it skips encoded white
    space and stops at the first byte of what does not start with any. *)
Lemma indexFunc_from_white fuel : forall s p u,
  s = (p ++ u)%string ->
  (String.length u <= fuel)%nat ->
  (indexFunc_from fuel s (len p) IsSpace false = -1 /\ white_space u) \/
  (exists w t,
      u = (w ++ t)%string /\ white_space w /\
      indexFunc_from fuel s (len p) IsSpace false = len p + len w /\
      ~ starts_with_space t).
Proof.
  induction fuel as [|fuel IH]; intros s p u Hs Hf.
  - destruct u; [|simpl in Hf; lia]. left. split; [reflexivity|constructor].
  - cbn [indexFunc_from].
    assert (Hlen : len s = len p + len u) by (rewrite Hs; apply len_app).
    pose proof (len_nonneg u) as Hu.
    destruct (Z.leb_spec (len s) (len p)) as [Hle|Hgt].
    + left. split; [reflexivity|].
      assert (u = "") by (apply len_empty; lia). subst u. constructor.
    + assert (Hsl : slice s (len p) (len s) = u)
        by (rewrite Hs; apply slice_app_r).
      rewrite Hsl.
      destruct (DecodeRuneInString u) as [r size] eqn:Hd.
      destruct (IsSpace r) eqn:Hsp; cbn [Bool.eqb].
      * destruct (Decode_space_inv u r size Hd Hsp)
          as (e & rest & He & Hue & Hl).
        assert (Hs' : s = ((p ++ e) ++ rest)%string)
          by (rewrite app_assoc_s, <- Hue; exact Hs).
        assert (Hf' : (String.length rest <= fuel)%nat).
        { pose proof (encoding_len e He) as Hel.
          assert (len u = len e + len rest) by (rewrite Hue; apply len_app).
          unfold len in *. lia. }
        replace (len p + size) with (len (p ++ e))
          by (rewrite len_app; lia).
        destruct (IH s (p ++ e)%string rest Hs' Hf')
          as [[Hk Hw]|(w & t & Hr & Hw & Hk & Ht)].
        -- left. split; [exact Hk|]. rewrite Hue. now constructor.
        -- right. exists (e ++ w)%string, t. repeat split.
           ++ now rewrite app_assoc_s, <- Hr.
           ++ now constructor.
           ++ rewrite Hk, !len_app. lia.
           ++ exact Ht.
      * right. exists "", u. repeat split; try constructor.
        -- change (len "") with 0. lia.
        -- intros (e & rest & He & Hue).
           destruct (Decode_space_encoding e rest He) as (r' & Hd' & Hs').
           rewrite <- Hue, Hd in Hd'. injection Hd' as <- _.
           rewrite Hsp in Hs'. discriminate.
Qed.

Lemma TrimLeftFunc_spec s :
  exists w,
    s = (w ++ TrimLeftFunc s IsSpace)%string /\ white_space w /\
    ~ starts_with_space (TrimLeftFunc s IsSpace).
Proof.
  unfold TrimLeftFunc, indexFunc.
  destruct (indexFunc_from_white (String.length s) s "" s eq_refl (Nat.le_refl _))
    as [[Hk Hw]|(w & t & Hs & Hw & Hk & Ht)];
    change (len "") with 0 in Hk; rewrite Hk.
  - change (-1 =? -1) with true. cbv iota.
    exists s. rewrite app_nil_r_s. repeat split; auto.
    intros (e & rest & He & Hc). pose proof (encoding_len e He) as Hl.
    apply (f_equal len) in Hc. rewrite len_app in Hc.
    change (len "") with 0 in Hc. pose proof (len_nonneg rest). lia.
  - pose proof (len_nonneg w) as Hwl.
    destruct (Z.eqb_spec (0 + len w) (-1)) as [|_]; [lia|].
    exists w.
    assert (Hsl : slice s (0 + len w) (len s) = t).
    { rewrite Hs. change (0 + len w) with (len w). apply slice_app_r. }
    rewrite Hsl. repeat split; auto.
Qed.

(** The backward loop: from the end of [p] it skips encoded white space
    and stops at the last rune that is not white space. *)
Lemma lastIndexFunc_from_white fuel : forall s p u,
  s = (p ++ u)%string ->
  (String.length p <= fuel)%nat ->
  (lastIndexFunc_from fuel s (len p) IsSpace false = -1 /\ white_space p) \/
  (exists q m w r,
      p = (q ++ m ++ w)%string /\ white_space w /\
      lastIndexFunc_from fuel s (len p) IsSpace false = len q /\
      1 <= len m /\
      DecodeLastRuneInString (q ++ m) = (r, len m) /\ IsSpace r = false).
Proof.
  induction fuel as [|fuel IH]; intros s p u Hs Hf.
  - destruct p; [|simpl in Hf; lia]. left. split; [reflexivity|constructor].
  - cbn [lastIndexFunc_from].
    pose proof (len_nonneg p) as Hp.
    destruct (Z.leb_spec (len p) 0) as [Hle|Hgt].
    + left. split; [reflexivity|].
      assert (p = "") by (apply len_empty; lia). subst p. constructor.
    + assert (Hsl : slice s 0 (len p) = p) by (rewrite Hs; apply slice_app_l).
      rewrite Hsl.
      destruct (DecodeLastRuneInString p) as [r size] eqn:Hd.
      destruct (IsSpace r) eqn:Hsp; cbn [Bool.eqb].
      * destruct (DecodeLast_space_inv p r size ltac:(lia) Hd Hsp)
          as (q & e & Hpe & He & Hl).
        assert (Hs' : s = (q ++ (e ++ u))%string)
          by (rewrite <- app_assoc_s, <- Hpe; exact Hs).
        pose proof (encoding_len e He) as Hel.
        assert (Hlp : len p = len q + len e) by (rewrite Hpe; apply len_app).
        assert (Hf' : (String.length q <= fuel)%nat)
          by (unfold len in *; lia).
        replace (len p - size) with (len q) by lia.
        destruct (IH s q (e ++ u)%string Hs' Hf')
          as [[Hk Hw]|(q' & m & w & r' & Hq & Hw & Hk & Hm & Hdl & Hr)].
        -- left. split; [exact Hk|]. rewrite Hpe.
           apply white_app; [exact Hw|now apply white_one].
        -- right. exists q', m, (w ++ e)%string, r'. repeat split; auto.
           ++ rewrite Hpe, Hq. now rewrite !app_assoc_s.
           ++ apply white_app; [exact Hw|now apply white_one].
      * destruct (DecodeLast_split p r size ltac:(lia) Hd)
          as (q & m & Hpm & Hm & Hsz & _).
        assert (Hlp : len p = len q + len m) by (rewrite Hpm; apply len_app).
        right. exists q, m, "", r. repeat split.
        -- now rewrite app_nil_r_s.
        -- constructor.
        -- lia.
        -- lia.
        -- rewrite <- Hpm, Hm. exact Hd.
        -- exact Hsp.
Qed.

Lemma len_one m : len m = 1 -> exists c, m = String c "".
Proof.
  intros H. destruct m as [|c m]; [discriminate H|].
  rewrite len_String in H. exists c. f_equal. apply len_empty. lia.
Qed.

(** The width [TrimRightFunc] adds back to the index of the last rune
    is the width of that rune. *)
Lemma last_rune_width q m w r :
  1 <= len m ->
  DecodeLastRuneInString (q ++ m) = (r, len m) ->
  white_space w ->
  (if RuneSelf <=? at_ m 0
   then snd (DecodeRuneInString (m ++ w))
   else 1) = len m.
Proof.
  intros Hm Hd Hw.
  assert (Hn : 1 <= len (q ++ m))
    by (rewrite len_app; pose proof (len_nonneg q); lia).
  destruct (DecodeLast_split (q ++ m) r (len m) Hn Hd)
    as (q2 & m2 & Hx & Hm2 & _ & Hcases).
  destruct (app_inv_len q m q2 m2 Hx (eq_sym Hm2)) as [<- <-].
  assert (Hlone : len m = 1 -> 128 <= at_ m 0 ->
                  snd (DecodeRuneInString (m ++ w)) = 1).
  { intros H1 Hge. destruct (len_one m H1) as [c ->].
    simpl append. apply Decode_lone; [exact Hge|]. now apply white_head. }
  unfold RuneSelf.
  destruct (Z.leb_spec 128 (at_ m 0)) as [Hge|Hlt].
  - destruct Hcases as [(Hc & _)|[(_ & H1 & _)|Hdm]].
    + lia.
    + rewrite Hlone; lia.
    + destruct (Z.le_gt_cases 2 (len m)) as [H2|H2].
      * rewrite (Decode_app m w r (len m) Hdm); [reflexivity|now left].
      * rewrite Hlone; lia.
  - destruct Hcases as [(_ & _ & H1)|[(_ & H1 & _)|Hdm]]; try lia.
    rewrite Decode_eq, decode4_one in Hdm;
      [injection Hdm as _ <-; reflexivity | lia |].
    pose proof (at_range m 0). lia.
Qed.

Lemma TrimRightFunc_spec t :
  exists w,
    t = (TrimRightFunc t IsSpace ++ w)%string /\ white_space w /\
    ~ ends_with_space (TrimRightFunc t IsSpace).
Proof.
  unfold TrimRightFunc, lastIndexFunc.
  destruct (lastIndexFunc_from_white (String.length t) t t ""
              (eq_sym (app_nil_r_s t)) (Nat.le_refl _))
    as [[Hk Hw]|(q & m & w & r & Ht & Hw & Hk & Hm & Hdl & Hr)]; rewrite Hk.
  - change ((0 <=? -1) && (RuneSelf <=? at_ t (-1))) with false. cbv iota.
    change (-1 + 1) with 0.
    assert (E : slice t 0 0 = "") by (unfold slice; destruct t; reflexivity).
    rewrite E. exists t. repeat split; auto.
    intros (e & rest & He & Hc). pose proof (encoding_len e He) as Hl.
    apply (f_equal len) in Hc. rewrite len_app in Hc.
    change (len "") with 0 in Hc. pose proof (len_nonneg rest). lia.
  - pose proof (len_nonneg q) as Hq.
    assert (Hat : at_ t (len q) = at_ m 0).
    { rewrite Ht. replace (len q) with (len q + 0) by lia.
      rewrite at_app_r by lia. apply at_app_l. lia. }
    assert (Hsl : slice t (len q) (len t) = (m ++ w)%string)
      by (rewrite Ht; apply slice_app_r).
    rewrite Hat, Hsl.
    destruct (Z.leb_spec 0 (len q)) as [_|]; [|lia]. cbn [andb].
    pose proof (last_rune_width q m w r Hm Hdl Hw) as Hwid.
    assert (Hend : (if RuneSelf <=? at_ m 0
                    then len q + snd (DecodeRuneInString (m ++ w))
                    else len q + 1) = len (q ++ m)).
    { rewrite len_app. destruct (RuneSelf <=? at_ m 0); lia. }
    rewrite Hend.
    assert (Ht' : t = ((q ++ m) ++ w)%string) by (now rewrite app_assoc_s).
    assert (Hres : slice t 0 (len (q ++ m)) = (q ++ m)%string)
      by (rewrite Ht' at 1; apply slice_app_l).
    rewrite Hres. exists w. repeat split; auto.
    intros (e & rest & He & Hc).
    destruct (DecodeLast_space_encoding rest e He) as (r' & Hd' & Hs').
    rewrite <- Hc, Hdl in Hd'. injection Hd' as <- _.
    rewrite Hr in Hs'. discriminate.
Qed.

(** [TrimSpace] removes exactly the white space at both ends: what it
    returns sits in its argument between two runs of encoded white
    space, and neither starts nor ends with encoded white space. *)
Lemma TrimSpace_spec s : trimmed_of s (TrimSpace s).
Proof.
  unfold TrimSpace, TrimFunc.
  destruct (TrimLeftFunc_spec s) as (lead & Hs & Hlead & Hstart).
  destruct (TrimRightFunc_spec (TrimLeftFunc s IsSpace))
    as (trail & Ht & Htrail & Hend).
  set (t1 := TrimLeftFunc s IsSpace) in *.
  set (t := TrimRightFunc t1 IsSpace) in *.
  exists lead, trail. repeat split; auto.
  - rewrite <- Ht. exact Hs.
  - intros (e & rest & He & Hc). apply Hstart.
    exists e, (rest ++ trail)%string. split; [exact He|].
    rewrite Ht, Hc. apply app_assoc_s.
Qed.

Lemma app_inv_len_l (a b c d : string) :
  (a ++ b = c ++ d)%string -> len a = len c -> a = c /\ b = d.
Proof.
  intros H Hl. apply app_inv_len; [exact H|].
  apply (f_equal len) in H. rewrite !len_app in H. lia.
Qed.

Lemma app_split (c : string) : forall a b d,
  (a ++ b = c ++ d)%string -> len c <= len a ->
  exists x, a = (c ++ x)%string /\ d = (x ++ b)%string.
Proof.
  induction c as [|y c IH]; intros a b d H Hl.
  - exists a. now split.
  - destruct a as [|x a].
    + rewrite len_String in Hl. change (len "") with 0 in Hl.
      pose proof (len_nonneg c). lia.
    + simpl in H. injection H as -> H. rewrite !len_String in Hl.
      destruct (IH a b d H) as (z & -> & ->); [lia|]. now exists z.
Qed.

(** No encoding of white space starts another, nor ends another. *)
Lemma encoding_prefix_free e1 e2 x y :
  In e1 space_encodings -> In e2 space_encodings ->
  (e1 ++ x = e2 ++ y)%string -> e1 = e2 /\ x = y.
Proof.
  intros H1 H2 H.
  destruct (Decode_space_encoding e1 x H1) as (r1 & Hd1 & _).
  destruct (Decode_space_encoding e2 y H2) as (r2 & Hd2 & _).
  rewrite H, Hd2 in Hd1. injection Hd1 as _ Hl.
  apply app_inv_len_l; [exact H|lia].
Qed.

Lemma encoding_suffix_free e1 e2 x y :
  In e1 space_encodings -> In e2 space_encodings ->
  (x ++ e1 = y ++ e2)%string -> x = y /\ e1 = e2.
Proof.
  intros H1 H2 H.
  destruct (DecodeLast_space_encoding x e1 H1) as (r1 & Hd1 & _).
  destruct (DecodeLast_space_encoding y e2 H2) as (r2 & Hd2 & _).
  rewrite H, Hd2 in Hd1. injection Hd1 as _ Hl.
  apply app_inv_len; [exact H|lia].
Qed.

Lemma encoding_tail_bytes e j :
  In e space_encodings -> 1 <= j < len e -> 128 <= at_ e j <= 191.
Proof.
  intros H Hj. simpl in H.
  repeat (destruct H as [<-|H]); try contradiction;
    change (len _) with 1 in Hj || change (len _) with 2 in Hj
    || change (len _) with 3 in Hj;
    try lia;
    (assert (Hc : j = 1 \/ j = 2) by lia; destruct Hc as [-> | ->];
     try lia; vm_compute; split; discriminate).
Qed.

(** What does not start with white space still does not with white space
    put after it, unless it is empty. *)
Lemma no_start_app t r :
  1 <= len t -> ~ starts_with_space t -> white_space r ->
  ~ starts_with_space (t ++ r).
Proof.
  intros Ht Hns Hr (e & rest & He & H).
  destruct (Z.le_gt_cases (len e) (len t)) as [Hle|Hgt].
  - destruct (app_split e t r rest H Hle) as (x & Hx & _).
    apply Hns. now exists e, x.
  - symmetry in H.
    destruct (app_split t e rest r H) as (x & Hx & Hrx); [lia|].
    assert (Hxl : 1 <= len x)
      by (apply (f_equal len) in Hx; rewrite len_app in Hx; lia).
    assert (Hb : 128 <= at_ r 0 <= 191).
    { rewrite Hrx, at_app_l by lia.
      replace (at_ x 0) with (at_ e (len t)).
      - apply encoding_tail_bytes; [exact He|lia].
      - rewrite Hx. rewrite <- (at_app_r t x 0) by lia. f_equal. lia. }
    destruct (white_head r Hr) as [->|Hh]; [|lia].
    change (len "") with 0 in *.
    apply (f_equal len) in Hrx. rewrite len_app in Hrx.
    change (len "") with 0 in Hrx. pose proof (len_nonneg rest). lia.
Qed.

Lemma white_lead_unique l1 : forall l2 x1 x2,
  white_space l1 -> white_space l2 ->
  (l1 ++ x1 = l2 ++ x2)%string ->
  ~ starts_with_space x1 -> ~ starts_with_space x2 ->
  l1 = l2 /\ x1 = x2.
Proof.
  intros l2 x1 x2 H1. revert l2.
  induction H1 as [|e l1 He _ IH]; intros l2 H2 H Hn1 Hn2.
  - destruct H2 as [|e2 l2 He2 _]; [now split|].
    exfalso. apply Hn1. exists e2, (l2 ++ x2)%string.
    split; [exact He2|]. simpl in H. now rewrite <- app_assoc_s.
  - destruct H2 as [|e2 l2 He2 H2].
    + exfalso. apply Hn2. exists e, (l1 ++ x1)%string.
      split; [exact He|]. simpl in H. now rewrite <- app_assoc_s, H.
    + rewrite !app_assoc_s in H.
      destruct (encoding_prefix_free e e2 _ _ He He2 H) as [-> H'].
      destruct (IH l2 H2 H' Hn1 Hn2) as [-> ->]. now split.
Qed.

Lemma white_snoc r :
  white_space r ->
  r = "" \/ exists r' e, r = (r' ++ e)%string /\ white_space r' /\
                         In e space_encodings.
Proof.
  intros H. induction H as [|e s He Hs IH]; [now left|right].
  destruct IH as [->|(s' & e' & -> & Hs' & He')].
  - exists "", e. rewrite app_nil_r_s. repeat split; [constructor|exact He].
  - exists (e ++ s')%string, e'. rewrite app_assoc_s.
    repeat split; [now constructor|exact He'].
Qed.

Lemma no_start_empty : ~ starts_with_space "".
Proof.
  intros (e & rest & He & Hc). pose proof (encoding_len e He) as Hl.
  apply (f_equal len) in Hc. rewrite len_app in Hc.
  change (len "") with 0 in Hc. pose proof (len_nonneg rest). lia.
Qed.

Lemma white_trail_unique n : forall r1 r2 t1 t2,
  (String.length r1 <= n)%nat ->
  white_space r1 -> white_space r2 ->
  (t1 ++ r1 = t2 ++ r2)%string ->
  ~ ends_with_space t1 -> ~ ends_with_space t2 ->
  t1 = t2.
Proof.
  induction n as [|n IH]; intros r1 r2 t1 t2 Hn H1 H2 H Hn1 Hn2.
  - destruct r1; [|simpl in Hn; lia]. rewrite app_nil_r_s in H.
    destruct (white_snoc r2 H2) as [->|(r2' & e & -> & _ & He)].
    + now rewrite app_nil_r_s in H.
    + exfalso. apply Hn1. exists e, (t2 ++ r2')%string.
      split; [exact He|]. now rewrite app_assoc_s.
  - destruct (white_snoc r1 H1) as [->|(r1' & e1 & -> & H1' & He1)];
      destruct (white_snoc r2 H2) as [->|(r2' & e2 & -> & H2' & He2)].
    + now rewrite !app_nil_r_s in H.
    + exfalso. apply Hn1. exists e2, (t2 ++ r2')%string.
      split; [exact He2|]. rewrite app_nil_r_s in H.
      now rewrite app_assoc_s.
    + exfalso. apply Hn2. exists e1, (t1 ++ r1')%string.
      split; [exact He1|]. rewrite app_nil_r_s in H.
      now rewrite app_assoc_s, H.
    + rewrite <- !app_assoc_s in H.
      destruct (encoding_suffix_free e1 e2 _ _ He1 He2 H) as [H' _].
      apply (IH r1' r2' t1 t2); auto.
      pose proof (encoding_len e1 He1) as Hl.
      assert (len (r1' ++ e1) = len r1' + len e1) by apply len_app.
      unfold len in *. lia.
Qed.

(** The trimmed string is determined by the string it is trimmed of. *)
Lemma trimmed_of_unique s t1 t2 :
  trimmed_of s t1 -> trimmed_of s t2 -> t1 = t2.
Proof.
  intros (l1 & r1 & Hs1 & Hl1 & Hr1 & Hns1 & Hne1)
         (l2 & r2 & Hs2 & Hl2 & Hr2 & Hns2 & Hne2).
  assert (Hempty : forall l r l' t' r',
             white_space l -> white_space r -> white_space l' ->
             white_space r' -> ~ starts_with_space t' ->
             (l ++ "" ++ r = l' ++ t' ++ r')%string -> t' = "").
  { intros l r l' t' r' Hl Hr Hl' Hr' Hns H.
    destruct (Z.le_gt_cases (len t') 0) as [Hz|Hpos].
    - apply len_empty. pose proof (len_nonneg t'). lia.
    - exfalso.
      assert (Hw : white_space (l ++ r)) by now apply white_app.
      destruct (white_lead_unique (l ++ r) l' "" (t' ++ r')%string Hw Hl')
        as [_ Hc].
      + rewrite app_nil_r_s. exact H.
      + exact no_start_empty.
      + apply no_start_app; [lia|exact Hns|exact Hr'].
      + apply (f_equal len) in Hc. rewrite len_app in Hc.
        change (len "") with 0 in Hc. pose proof (len_nonneg r'). lia. }
  destruct (Z.le_gt_cases (len t1) 0) as [Hz1|Hp1].
  - assert (t1 = "") by (apply len_empty; pose proof (len_nonneg t1); lia).
    subst t1. symmetry.
    apply (Hempty l1 r1 l2 t2 r2); auto. now rewrite <- Hs1.
  - destruct (Z.le_gt_cases (len t2) 0) as [Hz2|Hp2].
    + assert (t2 = "") by (apply len_empty; pose proof (len_nonneg t2); lia).
      subst t2.
      apply (Hempty l2 r2 l1 t1 r1); auto. now rewrite <- Hs2.
    + destruct (white_lead_unique l1 l2 (t1 ++ r1)%string (t2 ++ r2)%string
                  Hl1 Hl2) as [_ H].
      * now rewrite <- Hs1.
      * apply no_start_app; [lia|exact Hns1|exact Hr1].
      * apply no_start_app; [lia|exact Hns2|exact Hr2].
      * apply (white_trail_unique (String.length r1) r1 r2 t1 t2); auto.
Qed.

(** ** No slice is taken out of range *)

(** [query[:idx]] on line 70. *)
Lemma name_cut_in_range query :
  0 <= IndexByte query " " ->
  let idx := if IndexByte query " " >? 20 then 20 else IndexByte query " " in
  0 <= idx /\ idx <= len query.
Proof.
  intros H. pose proof (IndexByte_bounds query " "). cbv zeta.
  destruct (Z.gtb_spec (IndexByte query " ") 20); lia.
Qed.

(** [query[:queryLimit]] on line 75. *)
Lemma statement_cut_in_range query :
  (len query >? queryLimit) = true -> 0 <= queryLimit <= len query.
Proof.
  unfold queryLimit. intros H.
  destruct (Z.gtb_spec (len query) 5000); [lia|discriminate].
Qed.

(** [fn[ind+1:]] on line 140. *)
Lemma func_cut_in_range fn :
  LastIndexByte fn "/" <> -1 ->
  0 <= LastIndexByte fn "/" + 1 <= len fn.
Proof.
  intros H. pose proof (LastIndexByte_bounds fn "/"). lia.
Qed.

(** ** The hooks on a span that is not recording *)

(** On a recording span [BeforeQuery] asks the tracer for one span with the
    empty name and returns the context the tracer hands back. *)
Lemma BeforeQuery_recording tracer ctx evt :
  recording ctx = true ->
  BeforeQuery tracer ctx evt =
    ((fst (trace.start tracer ctx ""), None), [trace.Start ctx ""]).
Proof.
  intros Hrec. unfold BeforeQuery, recording in *. rewrite Hrec. reflexivity.
Qed.

(** C5. For every context whose current span is not recording,
    [BeforeQuery] returns the context unchanged with a nil error and makes
    no call on the tracing API (so no span is started), and [AfterQuery]
    returns nil and makes no call on the span (no name, attributes, status
    or close), whatever the event holds. *)
Theorem hooks_noop_when_not_recording
        (tracer : trace.Tracer) (callers : list runtime.Frame)
        (ctx : trace.Context) (evt : pg.QueryEvent) :
  recording ctx = false ->
  result (BeforeQuery tracer ctx evt) = (ctx, None) /\
  calls (BeforeQuery tracer ctx evt) = [] /\
  result (AfterQuery callers ctx evt) = None /\
  calls (AfterQuery callers ctx evt) = [].
Proof.
  intros Hrec. unfold recording in Hrec.
  unfold BeforeQuery, AfterQuery. rewrite Hrec. cbn.
  repeat split; reflexivity.
Qed.

(** ** Failure semantics *)

Lemma BeforeQuery_nil_error tracer ctx evt :
  snd (result (BeforeQuery tracer ctx evt)) = None.
Proof.
  unfold BeforeQuery.
  destruct (negb (trace.IsRecording (trace.SpanFromContext ctx))); reflexivity.
Qed.

(** What [AfterQuery] returns and logs when the rendering fails. *)
Lemma AfterQuery_render_error callers ctx evt b err :
  recording ctx = true ->
  rendering evt = (b, Some err) ->
  AfterQuery callers ctx evt =
    (Some err, [trace.End_ (trace.SpanFromContext ctx)]).
Proof.
  intros Hrec Hr. enter_AfterQuery Hrec.
  destruct (String.eqb _ orm.InsertOp); rewrite Hr; reflexivity.
Qed.

(** [AfterQuery] returns nil when the rendering succeeds. *)
Lemma AfterQuery_render_ok callers ctx evt query :
  recording ctx = true ->
  rendering evt = (query, None) ->
  result (AfterQuery callers ctx evt) = None.
Proof.
  intros Hrec Hr. enter_AfterQuery Hrec.
  destruct (String.eqb _ orm.InsertOp); rewrite Hr;
    split_hook; reflexivity.
Qed.

Lemma AfterQuery_result callers ctx evt :
  result (AfterQuery callers ctx evt) =
    if recording ctx then snd (rendering evt) else None.
Proof.
  destruct (recording ctx) eqn:Hrec.
  - destruct (rendering evt) as [b [err|]] eqn:Hr.
    + now rewrite (AfterQuery_render_error callers ctx evt b err Hrec Hr).
    + now rewrite (AfterQuery_render_ok callers ctx evt b Hrec Hr).
  - unfold AfterQuery, recording in *. now rewrite Hrec.
Qed.

(** C6. The only failure either hook propagates is a rendering error:
    [BeforeQuery] returns a nil error on every input, and [AfterQuery]
    returns the error [err] exactly when the span is recording and the
    rendering it asks for (unformatted for an insert, formatted otherwise)
    fails with [err]. *)
Theorem only_rendering_errors_propagate :
  (forall tracer ctx evt,
      snd (result (BeforeQuery tracer ctx evt)) = None) /\
  (forall callers ctx evt err,
      result (AfterQuery callers ctx evt) = Some err <->
      recording ctx = true /\
      ((operation_kind evt = orm.InsertOp /\
        snd (pg.UnformattedQuery evt) = Some err) \/
       (operation_kind evt <> orm.InsertOp /\
        snd (pg.FormattedQuery evt) = Some err))).
Proof.
  split; [exact BeforeQuery_nil_error|].
  intros callers ctx evt err. rewrite AfterQuery_result.
  unfold rendering.
  destruct (String.eqb_spec (operation_kind evt) orm.InsertOp) as [Hop|Hop];
    destruct (recording ctx); split.
  - intros H. split; [reflexivity|]. left. now split.
  - intros [_ [[_ H]|[Hn _]]]; [exact H|contradiction].
  - discriminate.
  - intros [H _]. discriminate.
  - intros H. split; [reflexivity|]. right. now split.
  - intros [_ [[Hn _]|[_ H]]]; [contradiction|exact H].
  - discriminate.
  - intros [H _]. discriminate.
Qed.

(** ** Closing the span *)

(** C8. Once the span is found to be recording, [AfterQuery] closes it
    exactly once, as its last call, on every exit path: when it completes
    normally and when it returns a rendering error early. *)
Theorem span_closed_exactly_once
        (callers : list runtime.Frame) (ctx : trace.Context)
        (evt : pg.QueryEvent) :
  recording ctx = true ->
  spans_ended (calls (AfterQuery callers ctx evt)) =
    [trace.SpanFromContext ctx] /\
  (exists before,
      calls (AfterQuery callers ctx evt) =
        before ++ [trace.End_ (trace.SpanFromContext ctx)] /\
      spans_ended before = []) /\
  (result (AfterQuery callers ctx evt) = None \/
   exists err, result (AfterQuery callers ctx evt) = Some err).
Proof.
  intros Hrec.
  destruct (rendering evt) as [b [err|]] eqn:Hr.
  - rewrite (AfterQuery_render_error callers ctx evt b err Hrec Hr).
    cbn. repeat split.
    + exists []. now split.
    + right. now exists err.
  - split; [|split].
    + enter_AfterQuery Hrec.
      destruct (String.eqb _ orm.InsertOp); rewrite Hr;
        split_hook; reflexivity.
    + enter_AfterQuery Hrec.
      destruct (String.eqb _ orm.InsertOp); rewrite Hr;
        split_hook; cbn [snd app];
        match goal with
        | |- exists _, ?l = _ /\ _ =>
            exists (removelast l); split; reflexivity
        end.
    + left. exact (AfterQuery_render_ok callers ctx evt b Hrec Hr).
Qed.

(** C10. When the rendering fails and its error is returned, closing the
    span is the only call made on it: no name is set, no attribute is
    attached, and no status or error is recorded. *)
Theorem render_error_only_closes
        (callers : list runtime.Frame) (ctx : trace.Context)
        (evt : pg.QueryEvent) (err : pg.error) :
  recording ctx = true ->
  result (AfterQuery callers ctx evt) = Some err ->
  calls (AfterQuery callers ctx evt) = [trace.End_ (trace.SpanFromContext ctx)] /\
  names_set (calls (AfterQuery callers ctx evt)) = [] /\
  attributes_set (calls (AfterQuery callers ctx evt)) = [] /\
  statuses_set (calls (AfterQuery callers ctx evt)) = [] /\
  errors_recorded (calls (AfterQuery callers ctx evt)) = [].
Proof.
  intros Hrec Hres.
  rewrite AfterQuery_result, Hrec in Hres.
  destruct (rendering evt) as [b e] eqn:Hr. cbn in Hres. subst e.
  rewrite (AfterQuery_render_error callers ctx evt b err Hrec Hr).
  cbn. repeat split.
Qed.

(** ** Outcome handling *)

(** C1. When the completed event carries an error (on a recording span
    whose query rendered): for the "no rows" and "multiple rows" errors the
    status is set to NotFound and no error is recorded; for every other
    error the status is set to Internal and that error is recorded. *)
Theorem error_classification
        (callers : list runtime.Frame) (ctx : trace.Context)
        (evt : pg.QueryEvent) (query : string) (err : pg.error) :
  recording ctx = true ->
  rendering evt = (query, None) ->
  pg.Err evt = Some err ->
  ((err = pg.ErrNoRows \/ err = pg.ErrMultiRows) /\
   statuses_set (calls (AfterQuery callers ctx evt)) = [(codes.NotFound, "")] /\
   errors_recorded (calls (AfterQuery callers ctx evt)) = [])
  \/
  (err <> pg.ErrNoRows /\ err <> pg.ErrMultiRows /\
   statuses_set (calls (AfterQuery callers ctx evt)) = [(codes.Internal, "")] /\
   errors_recorded (calls (AfterQuery callers ctx evt)) = [err]).
Proof.
  intros Hrec Hr He. enter_AfterQuery Hrec. rewrite He.
  destruct err as [| |s]; [left|left|right];
    (destruct (String.eqb _ orm.InsertOp); rewrite Hr; split_hook;
     cbn; repeat split; auto; discriminate).
Qed.

(** C7. With no error on the event and a result present, the
    [db.rows_affected] attribute is the result's rows-affected count, or
    its rows-returned count when rows-affected is zero; with an error on
    the event, or no result, no [db.rows_affected] attribute is attached. *)
Theorem rows_affected_attribute
        (callers : list runtime.Frame) (ctx : trace.Context)
        (evt : pg.QueryEvent) (query : string) :
  recording ctx = true ->
  rendering evt = (query, None) ->
  (exists res,
      pg.Err evt = None /\ pg.Result evt = Some res /\
      ((orm.RowsAffected res <> 0 /\
        attribute "db.rows_affected" (AfterQuery callers ctx evt) =
          [label.INT (orm.RowsAffected res)]) \/
       (orm.RowsAffected res = 0 /\
        attribute "db.rows_affected" (AfterQuery callers ctx evt) =
          [label.INT (orm.RowsReturned res)])))
  \/
  ((pg.Err evt <> None \/ pg.Result evt = None) /\
   attribute "db.rows_affected" (AfterQuery callers ctx evt) = []).
Proof.
  intros Hrec Hr. enter_AfterQuery Hrec.
  destruct (pg.Err evt) as [err|] eqn:He.
  - right. split; [left; discriminate|].
    destruct (String.eqb _ orm.InsertOp); rewrite Hr; split_hook; reflexivity.
  - destruct (pg.Result evt) as [res|] eqn:Hres.
    + left. exists res. split; [reflexivity|]. split; [reflexivity|].
      destruct (Z.eqb_spec (orm.RowsAffected res) 0) as [Hz|Hz];
        [right|left]; (split; [assumption|]);
        destruct (String.eqb _ orm.InsertOp); rewrite Hr; split_hook;
        reflexivity.
    + right. split; [now right|].
      destruct (String.eqb _ orm.InsertOp); rewrite Hr; split_hook; reflexivity.
Qed.

(** ** The statement attribute *)

Lemma statement_attribute callers ctx evt query :
  recording ctx = true ->
  rendering evt = (query, None) ->
  attribute "db.statement" (AfterQuery callers ctx evt) =
    [label.STRING
       (if len query >? queryLimit then slice query 0 queryLimit else query)].
Proof.
  intros Hrec Hr. enter_AfterQuery Hrec.
  destruct (String.eqb _ orm.InsertOp); rewrite Hr; split_hook; reflexivity.
Qed.

(** C4. The [db.statement] attribute holds exactly the first
    [min (L, 5000)] bytes of the rendered query text of length [L]: the
    text is attached whole when [L <= 5000] and cut to 5000 bytes
    otherwise, never extended. *)
Theorem statement_truncation
        (callers : list runtime.Frame) (ctx : trace.Context)
        (evt : pg.QueryEvent) (query : string) :
  recording ctx = true ->
  rendering evt = (query, None) ->
  exists stmt,
    attribute "db.statement" (AfterQuery callers ctx evt) = [label.STRING stmt] /\
    stmt = substring 0 (Nat.min (String.length query) 5000) query /\
    String.length stmt = Nat.min (String.length query) 5000 /\
    (((String.length query <= 5000)%nat /\ stmt = query) \/
     ((5000 < String.length query)%nat /\ String.length stmt = 5000%nat)).
Proof.
  intros Hrec Hr.
  exists (substring 0 (Nat.min (String.length query) 5000) query).
  split; [|split; [reflexivity|split]].
  - rewrite (statement_attribute callers ctx evt query Hrec Hr).
    now rewrite truncation_prefix.
  - rewrite length_substring_0. lia.
  - destruct (Nat.le_gt_cases (String.length query) 5000) as [H|H].
    + left. split; [exact H|].
      replace (Nat.min (String.length query) 5000)
        with (String.length query) by lia.
      apply substring_0_length.
    + right. split; [exact H|]. rewrite length_substring_0. lia.
Qed.

(** C2, as amended. On a recording span whose query rendered, the
    [db.statement] attribute is the first [min (L, 5000)] bytes of the
    unformatted rendering when the operation kind is insert, and of the
    formatted rendering for every other kind (an absent kind included). *)
Theorem statement_follows_operation_kind
        (callers : list runtime.Frame) (ctx : trace.Context)
        (evt : pg.QueryEvent) :
  recording ctx = true ->
  result (AfterQuery callers ctx evt) = None ->
  (operation_kind evt = orm.InsertOp /\
   attribute "db.statement" (AfterQuery callers ctx evt) =
     [label.STRING
        (substring 0
           (Nat.min (String.length (fst (pg.UnformattedQuery evt))) 5000)
           (fst (pg.UnformattedQuery evt)))])
  \/
  (operation_kind evt <> orm.InsertOp /\
   attribute "db.statement" (AfterQuery callers ctx evt) =
     [label.STRING
        (substring 0
           (Nat.min (String.length (fst (pg.FormattedQuery evt))) 5000)
           (fst (pg.FormattedQuery evt)))]).
Proof.
  intros Hrec Hres.
  rewrite AfterQuery_result, Hrec in Hres.
  destruct (rendering evt) as [query e] eqn:Hr. cbn in Hres. subst e.
  rewrite (statement_attribute callers ctx evt query Hrec Hr).
  rewrite truncation_prefix.
  unfold rendering in Hr.
  destruct (String.eqb_spec (operation_kind evt) orm.InsertOp) as [Hop|Hop];
    [left|right]; (split; [exact Hop|]); now rewrite Hr.
Qed.

(** ** Naming the span *)

(** C3. On a recording span whose query rendered: if an operation kind was
    captured (the kind is not empty; an empty report and no report are the
    same to the hook) the span name is set to it verbatim; otherwise, if the
    text has a space, the name is set to the white-space-trimmed prefix of
    the text that ends before the first space, or after 20 bytes if that
    comes first: the name is that prefix without the Unicode white space
    at its two ends, and neither starts nor ends with white space; and if
    the text has no space no name is ever set. *)
Theorem span_naming
        (callers : list runtime.Frame) (ctx : trace.Context)
        (evt : pg.QueryEvent) (query : string) :
  recording ctx = true ->
  rendering evt = (query, None) ->
  (operation_kind evt <> "" /\
   names_set (calls (AfterQuery callers ctx evt)) = [operation_kind evt])
  \/
  (operation_kind evt = "" /\
   exists i, first_space_at query i /\
     names_set (calls (AfterQuery callers ctx evt)) =
       [TrimSpace (substring 0 (Nat.min i 20) query)] /\
     trimmed_of (substring 0 (Nat.min i 20) query)
                (TrimSpace (substring 0 (Nat.min i 20) query)))
  \/
  (operation_kind evt = "" /\ no_space query /\
   names_set (calls (AfterQuery callers ctx evt)) = []).
Proof.
  intros Hrec Hr.
  destruct (String.eqb_spec (operation_kind evt) "") as [Hop|Hop].
  - right.
    assert (Hrf : pg.FormattedQuery evt = (query, None)).
    { unfold rendering in Hr. rewrite Hop in Hr. exact Hr. }
    destruct (Z.geb_spec (IndexByte query " ") 0) as [Hidx|Hidx].
    + left. split; [exact Hop|].
      exists (Z.to_nat (IndexByte query " ")).
      split; [apply IndexByte_found; lia|].
      split; [|apply TrimSpace_spec].
      enter_AfterQuery Hrec. rewrite Hop.
      change (String.eqb "" orm.InsertOp) with false.
      change (String.eqb "" "") with true. cbn [negb].
      rewrite Hrf.
      destruct (Z.geb_spec (IndexByte query " ") 0) as [_|Hc]; [|lia].
      assert (Hcut : slice query 0
                (if IndexByte query " " >? 20 then 20 else IndexByte query " ")
              = substring 0 (Nat.min (Z.to_nat (IndexByte query " ")) 20) query).
      { unfold slice.
        destruct (Z.gtb_spec (IndexByte query " ") 20); f_equal; lia. }
      rewrite Hcut. split_hook; reflexivity.
    + right. split; [exact Hop|].
      split; [intros j; apply IndexByte_absent; lia|].
      enter_AfterQuery Hrec. rewrite Hop.
      change (String.eqb "" orm.InsertOp) with false.
      change (String.eqb "" "") with true. cbn [negb].
      rewrite Hrf.
      destruct (Z.geb_spec (IndexByte query " ") 0) as [Hc|_]; [lia|].
      split_hook; reflexivity.
  - left. split; [exact Hop|].
    enter_AfterQuery Hrec.
    destruct (pg.Query evt) as [op|]; [|now contradiction Hop].
    apply String.eqb_neq in Hop. rewrite Hop. cbn [negb].
    destruct (String.eqb op orm.InsertOp); rewrite Hr; split_hook; reflexivity.
Qed.

(** ** The caller-location resolver *)

Lemma captured_at_most_16 stack : (List.length (captured stack) <= 16)%nat.
Proof.
  unfold captured, runtime.CallersFrames, runtime.Callers.
  rewrite length_firstn. lia.
Qed.

Lemma captured_skips_three f0 f1 f2 callers :
  captured (f0 :: f1 :: f2 :: callers) = firstn 16 callers.
Proof. reflexivity. Qed.

(** The reported function name is the part of the name after its last
    ['/']: it holds no ['/'], and the name is some prefix followed by it. *)
Lemma after_last_slash_no_slash fn :
  forall j, String.get j (after_last_slash fn) <> Some "/"%char.
Proof.
  intros j. unfold after_last_slash.
  pose proof (LastIndexByte_bounds fn "/") as Hb.
  destruct (Z.eqb_spec (LastIndexByte fn "/") (-1)) as [Heq|Hne]; cbn [negb].
  - apply LastIndexByte_absent. lia.
  - destruct (LastIndexByte_found fn "/") as [_ Hafter]; [lia|].
    unfold slice, len.
    destruct (Nat.lt_ge_cases j
                (Z.to_nat (Z.of_nat (String.length fn) - (LastIndexByte fn "/" + 1))))
      as [Hj|Hj].
    + rewrite substring_correct1 by exact Hj. apply Hafter. lia.
    + rewrite substring_correct2 by exact Hj. discriminate.
Qed.

Lemma after_last_slash_suffix fn :
  exists before, fn = (before ++ after_last_slash fn)%string.
Proof.
  unfold after_last_slash.
  pose proof (LastIndexByte_bounds fn "/") as Hb.
  destruct (Z.eqb_spec (LastIndexByte fn "/") (-1)) as [Heq|Hne]; cbn [negb].
  - now exists "".
  - exists (substring 0 (Z.to_nat (LastIndexByte fn "/" + 1)) fn).
    unfold slice, len in *.
    replace (Z.to_nat (Z.of_nat (String.length fn) - (LastIndexByte fn "/" + 1)))
      with (String.length fn - Z.to_nat (LastIndexByte fn "/" + 1))%nat by lia.
    apply substring_split.
Qed.

Lemma funcFileLine_loop_unfold fuel pkg ff fn file line :
  funcFileLine_loop (S fuel) pkg ff fn file line =
    match ff with
    | [] => (fn, file, line)
    | [_] => (fn, file, line)
    | f :: ((_ :: _) as rest) =>
        if negb (Contains (runtime.Function f) pkg)
        then (runtime.Function f, runtime.File f, runtime.Line f)
        else funcFileLine_loop fuel pkg rest
               (runtime.Function f) (runtime.File f) (runtime.Line f)
    end.
Proof. destruct ff as [|f [|g rest]]; reflexivity. Qed.

Lemma locate_spec_nonempty pkg f rest :
  exists g, locate_spec pkg (f :: rest) = Some g.
Proof.
  revert f. induction rest as [|h rest IH]; intros f; cbn [locate_spec].
  - destruct (negb (Contains (runtime.Function f) pkg)); now exists f.
  - destruct (negb (Contains (runtime.Function f) pkg)); [now exists f|].
    apply IH.
Qed.

(** The loop never looks at the last frame of the iterator: [Next] hands
    it out with [more = false], and the loop leaves before reading it. *)
Lemma funcFileLine_loop_spec pkg ff :
  forall fuel fn file line,
    (List.length ff < fuel)%nat ->
    funcFileLine_loop fuel pkg ff fn file line =
      match locate_spec pkg (removelast ff) with
      | Some f => (runtime.Function f, runtime.File f, runtime.Line f)
      | None => (fn, file, line)
      end.
Proof.
  induction ff as [|f rest IH]; intros fuel fn file line Hfuel.
  - destruct fuel; reflexivity.
  - destruct fuel as [|fuel]; [simpl in Hfuel; lia|].
    rewrite funcFileLine_loop_unfold.
    destruct rest as [|g rest]; [reflexivity|].
    change (removelast (f :: g :: rest)) with (f :: removelast (g :: rest)).
    cbn [locate_spec].
    destruct (negb (Contains (runtime.Function f) pkg)); [reflexivity|].
    rewrite IH by (simpl in *; lia).
    destruct (removelast (g :: rest)) as [|h rest']; [reflexivity|].
    destruct (locate_spec_nonempty pkg h rest') as [x ->]. reflexivity.
Qed.

(** Any fuel above the number of frames gives the same walk. *)
Lemma funcFileLine_loop_fuel pkg ff fuel fn file line :
  (List.length ff < fuel)%nat ->
  funcFileLine_loop fuel pkg ff fn file line =
  funcFileLine_loop (S (List.length ff)) pkg ff fn file line.
Proof.
  intros H. rewrite !funcFileLine_loop_spec by lia. reflexivity.
Qed.

(** What [funcFileLine] computes: the specified resolver run on the
    captured frames without the outermost one, and the zero values when
    that leaves nothing. *)
Lemma funcFileLine_spec stack pkg :
  funcFileLine stack pkg =
    match locate_spec pkg (removelast (captured stack)) with
    | Some f => report f
    | None => ("", "", 0)
    end.
Proof.
  unfold funcFileLine. fold (captured stack).
  rewrite funcFileLine_loop_spec by lia.
  destruct (locate_spec pkg (removelast (captured stack))); reflexivity.
Qed.

Lemma locate_spec_app_found pkg pre f post :
  Forall (fun g => Contains (runtime.Function g) pkg = true) pre ->
  Contains (runtime.Function f) pkg = false ->
  locate_spec pkg (pre ++ f :: post) = Some f.
Proof.
  intros Hpre Hf. induction Hpre as [|g pre Hg _ IH]; simpl.
  - now rewrite Hf.
  - rewrite Hg. cbn [negb].
    destruct (pre ++ f :: post) eqn:E; [now destruct pre|exact IH].
Qed.

Lemma locate_spec_all_inside pkg pre f :
  Forall (fun g => Contains (runtime.Function g) pkg = true) pre ->
  locate_spec pkg (pre ++ [f]) = Some f.
Proof.
  intros Hpre. induction Hpre as [|g pre Hg _ IH]; simpl.
  - now destruct (negb (Contains (runtime.Function f) pkg)).
  - rewrite Hg. cbn [negb].
    destruct (pre ++ [f]) eqn:E; [now destruct pre|exact IH].
Qed.

(** Where the first frame outside [pkg] is followed by another captured
    frame, the code returns it, as specified. *)
Lemma funcFileLine_agrees stack pkg pre f post :
  captured stack = pre ++ f :: post ->
  post <> [] ->
  Forall (fun g => Contains (runtime.Function g) pkg = true) pre ->
  Contains (runtime.Function f) pkg = false ->
  locate_spec pkg (captured stack) = Some f /\
  funcFileLine stack pkg = report f.
Proof.
  intros Hc Hpost Hpre Hf. rewrite funcFileLine_spec, Hc. split.
  - now apply locate_spec_app_found.
  - destruct (exists_last Hpost) as [post' [l ->]].
    replace (pre ++ f :: post' ++ [l]) with ((pre ++ f :: post') ++ [l])
      by now rewrite <- app_assoc.
    rewrite removelast_last.
    now rewrite (locate_spec_app_found pkg pre f post' Hpre Hf).
Qed.

(** Where every captured frame but the outermost lies inside [pkg], the
    code returns the frame below the outermost one, whereas the outermost
    one is specified. *)
Lemma funcFileLine_stops_short stack pkg pre g f :
  captured stack = pre ++ [g; f] ->
  Forall (fun h => Contains (runtime.Function h) pkg = true) (pre ++ [g]) ->
  locate_spec pkg (captured stack) = Some f /\
  funcFileLine stack pkg = report g.
Proof.
  intros Hc Hin. rewrite funcFileLine_spec, Hc. split.
  - change (pre ++ [g; f]) with (pre ++ [g] ++ [f]). rewrite app_assoc.
    now apply locate_spec_all_inside.
  - change (pre ++ [g; f]) with (pre ++ [g] ++ [f]). rewrite app_assoc.
    rewrite removelast_last.
    apply Forall_app in Hin. destruct Hin as [Hpre _].
    now rewrite (locate_spec_all_inside pkg pre g Hpre).
Qed.

(** ** The claims at the sample inputs *)

Lemma error_classification_witness :
  recording sample_ctx = true /\
  rendering no_rows_evt = ("SELECT * FROM orders WHERE id = 7", None) /\
  pg.Err no_rows_evt = Some pg.ErrNoRows /\
  (((pg.ErrNoRows = pg.ErrNoRows \/ pg.ErrNoRows = pg.ErrMultiRows) /\
    statuses_set (calls (AfterQuery sample_callers sample_ctx no_rows_evt)) =
      [(codes.NotFound, "")] /\
    errors_recorded (calls (AfterQuery sample_callers sample_ctx no_rows_evt)) = [])
   \/
   (pg.ErrNoRows <> pg.ErrNoRows /\ pg.ErrNoRows <> pg.ErrMultiRows /\
    statuses_set (calls (AfterQuery sample_callers sample_ctx no_rows_evt)) =
      [(codes.Internal, "")] /\
    errors_recorded (calls (AfterQuery sample_callers sample_ctx no_rows_evt)) =
      [pg.ErrNoRows])).
Proof.
  split; [reflexivity|]. split; [reflexivity|]. split; [reflexivity|].
  apply (error_classification sample_callers sample_ctx no_rows_evt
           "SELECT * FROM orders WHERE id = 7" pg.ErrNoRows); reflexivity.
Defined.

Lemma span_naming_witness :
  recording sample_ctx = true /\
  rendering indented_evt =
    (String "010" (String "009" "SELECT * FROM orders WHERE id = 7"), None) /\
  ((operation_kind indented_evt <> "" /\
    names_set (calls (AfterQuery sample_callers sample_ctx indented_evt)) =
      [operation_kind indented_evt])
   \/
   (operation_kind indented_evt = "" /\
    exists i,
      first_space_at
        (String "010" (String "009" "SELECT * FROM orders WHERE id = 7")) i /\
      names_set (calls (AfterQuery sample_callers sample_ctx indented_evt)) =
        [TrimSpace
           (substring 0 (Nat.min i 20)
              (String "010" (String "009" "SELECT * FROM orders WHERE id = 7")))] /\
      trimmed_of
        (substring 0 (Nat.min i 20)
           (String "010" (String "009" "SELECT * FROM orders WHERE id = 7")))
        (TrimSpace
           (substring 0 (Nat.min i 20)
              (String "010" (String "009" "SELECT * FROM orders WHERE id = 7")))))
   \/
   (operation_kind indented_evt = "" /\
    no_space (String "010" (String "009" "SELECT * FROM orders WHERE id = 7")) /\
    names_set (calls (AfterQuery sample_callers sample_ctx indented_evt)) = [])).
Proof.
  split; [reflexivity|]. split; [reflexivity|].
  apply (span_naming sample_callers sample_ctx indented_evt
           (String "010" (String "009" "SELECT * FROM orders WHERE id = 7")));
    reflexivity.
Defined.

Lemma statement_truncation_witness :
  recording sample_ctx = true /\
  rendering bulk_insert_evt = (bulk_insert_text, None) /\
  exists stmt,
    attribute "db.statement"
      (AfterQuery sample_callers sample_ctx bulk_insert_evt) = [label.STRING stmt] /\
    stmt = substring 0 (Nat.min (String.length bulk_insert_text) 5000)
             bulk_insert_text /\
    String.length stmt = Nat.min (String.length bulk_insert_text) 5000 /\
    (((String.length bulk_insert_text <= 5000)%nat /\ stmt = bulk_insert_text) \/
     ((5000 < String.length bulk_insert_text)%nat /\
      String.length stmt = 5000%nat)).
Proof.
  split; [reflexivity|]. split; [reflexivity|].
  apply (statement_truncation sample_callers sample_ctx bulk_insert_evt
           bulk_insert_text); reflexivity.
Defined.

Lemma statement_follows_operation_kind_witness :
  recording sample_ctx = true /\
  result (AfterQuery sample_callers sample_ctx bulk_insert_evt) = None /\
  ((operation_kind bulk_insert_evt = orm.InsertOp /\
    attribute "db.statement"
      (AfterQuery sample_callers sample_ctx bulk_insert_evt) =
      [label.STRING
         (substring 0
            (Nat.min (String.length (fst (pg.UnformattedQuery bulk_insert_evt))) 5000)
            (fst (pg.UnformattedQuery bulk_insert_evt)))])
   \/
   (operation_kind bulk_insert_evt <> orm.InsertOp /\
    attribute "db.statement"
      (AfterQuery sample_callers sample_ctx bulk_insert_evt) =
      [label.STRING
         (substring 0
            (Nat.min (String.length (fst (pg.FormattedQuery bulk_insert_evt))) 5000)
            (fst (pg.FormattedQuery bulk_insert_evt)))])).
Proof.
  split; [reflexivity|]. split; [vm_compute; reflexivity|].
  apply (statement_follows_operation_kind sample_callers sample_ctx
           bulk_insert_evt); [reflexivity | vm_compute; reflexivity].
Defined.

Lemma hooks_noop_when_not_recording_witness :
  recording idle_ctx = false /\
  result (BeforeQuery sample_tracer idle_ctx select_evt) = (idle_ctx, None) /\
  calls (BeforeQuery sample_tracer idle_ctx select_evt) = [] /\
  result (AfterQuery sample_callers idle_ctx select_evt) = None /\
  calls (AfterQuery sample_callers idle_ctx select_evt) = [].
Proof.
  split; [reflexivity|].
  apply (hooks_noop_when_not_recording sample_tracer sample_callers
           idle_ctx select_evt); reflexivity.
Defined.

Lemma rows_affected_attribute_witness :
  recording sample_ctx = true /\
  rendering select_evt = ("SELECT * FROM orders WHERE id = 7", None) /\
  ((exists res,
       pg.Err select_evt = None /\ pg.Result select_evt = Some res /\
       ((orm.RowsAffected res <> 0 /\
         attribute "db.rows_affected"
           (AfterQuery sample_callers sample_ctx select_evt) =
           [label.INT (orm.RowsAffected res)]) \/
        (orm.RowsAffected res = 0 /\
         attribute "db.rows_affected"
           (AfterQuery sample_callers sample_ctx select_evt) =
           [label.INT (orm.RowsReturned res)])))
   \/
   ((pg.Err select_evt <> None \/ pg.Result select_evt = None) /\
    attribute "db.rows_affected"
      (AfterQuery sample_callers sample_ctx select_evt) = [])).
Proof.
  split; [reflexivity|]. split; [reflexivity|].
  apply (rows_affected_attribute sample_callers sample_ctx select_evt
           "SELECT * FROM orders WHERE id = 7"); reflexivity.
Defined.

Lemma span_closed_exactly_once_witness :
  recording sample_ctx = true /\
  spans_ended (calls (AfterQuery sample_callers sample_ctx unrenderable_evt)) =
    [trace.SpanFromContext sample_ctx] /\
  (exists before,
      calls (AfterQuery sample_callers sample_ctx unrenderable_evt) =
        before ++ [trace.End_ (trace.SpanFromContext sample_ctx)] /\
      spans_ended before = []) /\
  (result (AfterQuery sample_callers sample_ctx unrenderable_evt) = None \/
   exists err,
     result (AfterQuery sample_callers sample_ctx unrenderable_evt) = Some err).
Proof.
  split; [reflexivity|].
  apply (span_closed_exactly_once sample_callers sample_ctx unrenderable_evt);
    reflexivity.
Defined.

Lemma render_error_only_closes_witness :
  recording sample_ctx = true /\
  result (AfterQuery sample_callers sample_ctx unrenderable_evt) =
    Some (pg.errorString "pg: too few parameters") /\
  calls (AfterQuery sample_callers sample_ctx unrenderable_evt) =
    [trace.End_ (trace.SpanFromContext sample_ctx)] /\
  names_set (calls (AfterQuery sample_callers sample_ctx unrenderable_evt)) = [] /\
  attributes_set (calls (AfterQuery sample_callers sample_ctx unrenderable_evt)) = [] /\
  statuses_set (calls (AfterQuery sample_callers sample_ctx unrenderable_evt)) = [] /\
  errors_recorded (calls (AfterQuery sample_callers sample_ctx unrenderable_evt)) = [].
Proof.
  split; [reflexivity|]. split; [reflexivity|].
  apply (render_error_only_closes sample_callers sample_ctx unrenderable_evt
           (pg.errorString "pg: too few parameters")); reflexivity.
Defined.

(** C2, as first stated, fails on a long insert: the statement attached is
    the unformatted rendering cut to 5000 bytes, not the rendering itself. *)
Lemma insert_statement_is_not_the_whole_rendering :
  recording sample_ctx = true /\
  operation_kind bulk_insert_evt = orm.InsertOp /\
  result (AfterQuery sample_callers sample_ctx bulk_insert_evt) = None /\
  attribute "db.statement"
    (AfterQuery sample_callers sample_ctx bulk_insert_evt) <>
    [label.STRING (fst (pg.UnformattedQuery bulk_insert_evt))].
Proof.
  split; [reflexivity|]. split; [reflexivity|].
  split; [vm_compute; reflexivity|].
  intros H.
  apply (f_equal (fun vs => match vs with
                            | [label.STRING s] => len s
                            | _ => 0
                            end)) in H.
  vm_compute in H. discriminate H.
Qed.

(** C9, at a call that reaches the hook through fifteen ORM frames.  Sixteen
    frames are captured, the application frame last; it is the first frame
    outside the ORM's namespace, yet [funcFileLine] reports the ORM frame
    below it: [Next] returns the last frame with [more = false], and the
    loop leaves on [!ok] before reading that frame. *)
Theorem funcFileLine_misses_last_captured_frame :
  List.length (captured deep_stack) = 16%nat /\
  last (captured deep_stack) runtime.zeroFrame = app_frame /\
  locate_spec "github.com/go-pg/pg" (captured deep_stack) = Some app_frame /\
  report app_frame = ("store.LoadOrders", "store/orders.go", 57) /\
  funcFileLine deep_stack "github.com/go-pg/pg" =
    ("v10.baseDB.query", "github.com/go-pg/pg/v10/base.go", 314) /\
  funcFileLine deep_stack "github.com/go-pg/pg" <> report app_frame.
Proof.
  repeat split; try (vm_compute; reflexivity).
  vm_compute. discriminate.
Qed.

(** ** The two hooks as a pair *)

(** X1. When [BeforeQuery] runs on a recording span and the tracer hands
    back a context carrying the new span, itself recording, then
    [BeforeQuery] makes the single call [Start] with the empty name and
    [AfterQuery], run on the context [BeforeQuery] returned, closes that
    new span once and closes no other span, whatever the event. *)
Theorem AfterQuery_closes_the_started_span
        (tracer : trace.Tracer) (callers : list runtime.Frame)
        (ctx : trace.Context) (evt evt' : pg.QueryEvent) :
  recording ctx = true ->
  trace.ctx_span (fst (trace.start tracer ctx "")) =
    Some (snd (trace.start tracer ctx "")) ->
  trace.IsRecording (snd (trace.start tracer ctx "")) = true ->
  calls (BeforeQuery tracer ctx evt) = [trace.Start ctx ""] /\
  snd (result (BeforeQuery tracer ctx evt)) = None /\
  spans_ended
    (calls (AfterQuery callers (fst (result (BeforeQuery tracer ctx evt))) evt')) =
    [snd (trace.start tracer ctx "")].
Proof.
  intros Hrec Hctx Hnew.
  rewrite (BeforeQuery_recording tracer ctx evt Hrec).
  cbn [calls result fst snd]. split; [reflexivity|]. split; [reflexivity|].
  set (ctx' := fst (trace.start tracer ctx "")) in *.
  assert (Hspan : trace.SpanFromContext ctx' = snd (trace.start tracer ctx "")).
  { unfold trace.SpanFromContext. now rewrite Hctx. }
  assert (Hrec' : recording ctx' = true).
  { unfold recording. now rewrite Hspan. }
  rewrite <- Hspan.
  destruct (rendering evt') as [b [err|]] eqn:Hr.
  - now rewrite (AfterQuery_render_error callers ctx' evt' b err Hrec' Hr).
  - enter_AfterQuery Hrec'.
    destruct (String.eqb _ orm.InsertOp); rewrite Hr; split_hook; reflexivity.
Qed.

(** X2. When the span the tracer starts does not record (it is sampled
    out), [AfterQuery] on the context [BeforeQuery] returned makes no
    call at all: the span [BeforeQuery] started is never closed by the
    hook. *)
Theorem unrecorded_started_span_is_never_closed
        (tracer : trace.Tracer) (callers : list runtime.Frame)
        (ctx : trace.Context) (evt evt' : pg.QueryEvent) :
  recording ctx = true ->
  recording (fst (trace.start tracer ctx "")) = false ->
  calls (BeforeQuery tracer ctx evt) = [trace.Start ctx ""] /\
  AfterQuery callers (fst (result (BeforeQuery tracer ctx evt))) evt' = (None, []).
Proof.
  intros Hrec Hnew.
  rewrite (BeforeQuery_recording tracer ctx evt Hrec).
  cbn [calls result fst snd]. split; [reflexivity|].
  unfold AfterQuery. unfold recording in Hnew. now rewrite Hnew.
Qed.

(** ** Which calls [AfterQuery] makes, and in which order *)

(** X3. Every call [AfterQuery] makes is a call on the span of the context
    it was given: it never starts a span and never touches another span. *)
Theorem AfterQuery_only_touches_its_span
        (callers : list runtime.Frame) (ctx : trace.Context)
        (evt : pg.QueryEvent) :
  Forall (fun c => call_span c = Some (trace.SpanFromContext ctx))
         (calls (AfterQuery callers ctx evt)).
Proof.
  destruct (recording ctx) eqn:Hrec.
  - destruct (rendering evt) as [b [err|]] eqn:Hr.
    + rewrite (AfterQuery_render_error callers ctx evt b err Hrec Hr).
      repeat constructor.
    + enter_AfterQuery Hrec.
      destruct (String.eqb _ orm.InsertOp); rewrite Hr; split_hook;
        cbn; repeat constructor.
  - unfold AfterQuery, recording in *. rewrite Hrec. constructor.
Qed.

(** X4. When [AfterQuery] returns nil on a recording span, its last two
    calls are one [SetAttributes] followed by [End]; whatever comes before
    (at most a name, a status and an error record) attaches no attribute
    and closes nothing.  All attributes are thus applied in one call, after
    naming and status, and right before the span is closed. *)
Theorem attributes_applied_once_before_End
        (callers : list runtime.Frame) (ctx : trace.Context)
        (evt : pg.QueryEvent) :
  recording ctx = true ->
  result (AfterQuery callers ctx evt) = None ->
  exists before attrs,
    calls (AfterQuery callers ctx evt) =
      before ++ [trace.SetAttributes (trace.SpanFromContext ctx) attrs;
                 trace.End_ (trace.SpanFromContext ctx)] /\
    attributes_set before = [] /\
    spans_ended before = [] /\
    (List.length before <= 3)%nat.
Proof.
  intros Hrec Hres.
  rewrite AfterQuery_result, Hrec in Hres.
  destruct (rendering evt) as [query e] eqn:Hr. cbn in Hres. subst e.
  enter_AfterQuery Hrec.
  destruct (String.eqb _ orm.InsertOp); rewrite Hr; split_hook;
    cbn [snd app];
    match goal with
    | |- exists _ _, ?l = _ /\ _ =>
        exists (removelast (removelast l)); eexists;
        split; [reflexivity|]; cbn; repeat split; lia
    end.
Qed.

(** X5. An event without an error never changes the span's status: no
    status is set and no error is recorded, on every path. *)
Theorem no_status_without_error
        (callers : list runtime.Frame) (ctx : trace.Context)
        (evt : pg.QueryEvent) :
  pg.Err evt = None ->
  statuses_set (calls (AfterQuery callers ctx evt)) = [] /\
  errors_recorded (calls (AfterQuery callers ctx evt)) = [].
Proof.
  intros He.
  destruct (recording ctx) eqn:Hrec.
  - destruct (rendering evt) as [b [err|]] eqn:Hr.
    + rewrite (AfterQuery_render_error callers ctx evt b err Hrec Hr).
      now split.
    + enter_AfterQuery Hrec. rewrite He.
      destruct (String.eqb _ orm.InsertOp); rewrite Hr; split_hook;
        split; reflexivity.
  - unfold AfterQuery, recording in *. rewrite Hrec. now split.
Qed.

(** ** The attributes *)

(** X6. With a [*pg.DB] behind [evt.DB] the attributes
    [db.connection_string], [db.user] and [db.name] are the address, user
    and database of its options; with any other handle none of the three is
    attached. *)
Theorem connection_attributes
        (callers : list runtime.Frame) (ctx : trace.Context)
        (evt : pg.QueryEvent) (query : string) :
  recording ctx = true ->
  rendering evt = (query, None) ->
  (exists opt,
      pg.DB evt = pg.PgDB opt /\
      attribute "db.connection_string" (AfterQuery callers ctx evt) =
        [label.STRING (pg.Addr opt)] /\
      attribute "db.user" (AfterQuery callers ctx evt) =
        [label.STRING (pg.User opt)] /\
      attribute "db.name" (AfterQuery callers ctx evt) =
        [label.STRING (pg.Database opt)])
  \/
  (pg.DB evt = pg.OtherDB /\
   attribute "db.connection_string" (AfterQuery callers ctx evt) = [] /\
   attribute "db.user" (AfterQuery callers ctx evt) = [] /\
   attribute "db.name" (AfterQuery callers ctx evt) = []).
Proof.
  intros Hrec Hr. enter_AfterQuery Hrec.
  destruct (pg.DB evt) as [opt|] eqn:Hdb.
  - left. exists opt. split; [reflexivity|].
    destruct (String.eqb _ orm.InsertOp); rewrite Hr; split_hook;
      repeat split; reflexivity.
  - right. split; [reflexivity|].
    destruct (String.eqb _ orm.InsertOp); rewrite Hr; split_hook;
      repeat split; reflexivity.
Qed.

(** X7. When [AfterQuery] returns nil on a recording span, the attributes
    it attaches have pairwise distinct keys and number between five and
    nine, so the slice made with capacity ten on line 80 never grows. *)
Theorem attribute_keys_distinct_and_bounded
        (callers : list runtime.Frame) (ctx : trace.Context)
        (evt : pg.QueryEvent) :
  recording ctx = true ->
  result (AfterQuery callers ctx evt) = None ->
  NoDup (map fst (attributes_set (calls (AfterQuery callers ctx evt)))) /\
  (5 <= List.length (attributes_set (calls (AfterQuery callers ctx evt))) <= 9)%nat.
Proof.
  intros Hrec Hres.
  rewrite AfterQuery_result, Hrec in Hres.
  destruct (rendering evt) as [query e] eqn:Hr. cbn in Hres. subst e.
  enter_AfterQuery Hrec.
  destruct (String.eqb _ orm.InsertOp); rewrite Hr; split_hook;
    (split;
     [ cbn; repeat (constructor; [cbn; intuition discriminate|]); constructor
     | cbn; lia ]).
Qed.

Lemma frame_attributes callers ctx evt query fn file line :
  recording ctx = true ->
  rendering evt = (query, None) ->
  funcFileLine
    (frame_Callers :: frame_funcFileLine :: frame_AfterQuery :: callers)
    pg_namespace = (fn, file, line) ->
  attribute "frame.func" (AfterQuery callers ctx evt) = [label.STRING fn] /\
  attribute "frame.file" (AfterQuery callers ctx evt) = [label.STRING file] /\
  attribute "frame.line" (AfterQuery callers ctx evt) = [label.INT line].
Proof.
  intros Hrec Hr Hff. unfold pg_namespace in Hff. enter_AfterQuery Hrec.
  destruct (String.eqb _ orm.InsertOp); rewrite Hr, Hff; split_hook;
    repeat split; reflexivity.
Qed.

(** X8. Caller attribution, end to end.  When [AfterQuery] is reached
    through at most fourteen frames of the ORM's namespace, followed by a
    frame [f] outside it and at least one more frame, the attributes
    [frame.func], [frame.file] and [frame.line] are those of [f], its
    function name cut after the last ['/']. *)
Theorem frame_attributes_name_the_application_caller
        (callers pre post : list runtime.Frame) (f g : runtime.Frame)
        (ctx : trace.Context) (evt : pg.QueryEvent) (query : string) :
  recording ctx = true ->
  rendering evt = (query, None) ->
  callers = pre ++ f :: g :: post ->
  Forall (inside pg_namespace) pre ->
  Contains (runtime.Function f) pg_namespace = false ->
  (List.length pre <= 14)%nat ->
  attribute "frame.func" (AfterQuery callers ctx evt) =
    [label.STRING (after_last_slash (runtime.Function f))] /\
  attribute "frame.file" (AfterQuery callers ctx evt) =
    [label.STRING (runtime.File f)] /\
  attribute "frame.line" (AfterQuery callers ctx evt) =
    [label.INT (runtime.Line f)].
Proof.
  intros Hrec Hr Hc Hpre Hf Hlen.
  apply (frame_attributes callers ctx evt query _ _ _ Hrec Hr).
  assert (Hcap : captured (frame_Callers :: frame_funcFileLine
                             :: frame_AfterQuery :: callers) =
                 pre ++ f :: g :: firstn (14 - List.length pre) post).
  { rewrite captured_skips_three, Hc, firstn_app.
    rewrite firstn_all2 by lia.
    replace (16 - List.length pre)%nat
      with (S (S (14 - List.length pre))) by lia.
    reflexivity. }
  destruct (funcFileLine_agrees _ pg_namespace pre f _ Hcap) as [_ H];
    [discriminate | exact Hpre | exact Hf | exact H].
Qed.

(** X9. For an insert the formatted rendering is never used, and for any
    other operation kind the unformatted one is never used: replacing the
    unused rendering by any outcome, a failing one included, changes
    neither what [AfterQuery] returns nor the calls it makes. *)
Theorem unused_rendering_is_ignored
        (callers : list runtime.Frame) (ctx : trace.Context)
        (evt : pg.QueryEvent) (r : string * option pg.error) :
  AfterQuery callers ctx
    (if String.eqb (operation_kind evt) orm.InsertOp
     then with_FormattedQuery evt r
     else with_UnformattedQuery evt r) =
  AfterQuery callers ctx evt.
Proof.
  destruct evt as [db q err res unf fmt].
  cbv beta iota zeta delta
      [AfterQuery with_FormattedQuery with_UnformattedQuery operation_kind
       pg.Query pg.DB pg.Err pg.Result pg.UnformattedQuery pg.FormattedQuery].
  repeat match goal with
  | |- context [String.eqb ?op orm.InsertOp] =>
      destruct (String.eqb op orm.InsertOp) eqn:?
  end;
    try reflexivity; exfalso;
    match goal with
    | H1 : _ = true, H2 : _ = false |- _ =>
        apply diff_true_false; rewrite <- H1; exact H2
    end.
Qed.

(** ** The name derived from the query text *)

Lemma length_substring_le s : forall n m,
  (String.length (substring n m s) <= m)%nat /\
  (String.length (substring n m s) <= String.length s)%nat.
Proof.
  induction s as [|a s IH]; intros [|n] [|m]; simpl; try lia.
  - destruct (IH 0%nat m). lia.
  - destruct (IH n 0%nat). lia.
  - destruct (IH n (S m)). lia.
Qed.

Lemma get_substring s n m p c :
  String.get p (substring n m s) = Some c ->
  (p < m)%nat /\ String.get (p + n) s = Some c.
Proof.
  intros H. destruct (Nat.lt_ge_cases p m) as [Hlt|Hge].
  - split; [exact Hlt|]. now rewrite <- (substring_correct1 s n m p Hlt).
  - rewrite (substring_correct2 s n m p Hge) in H. discriminate.
Qed.

(** [TrimSpace] only removes bytes: its result is no longer than its
    argument, and every byte of it is a byte of the argument. *)
Lemma TrimSpace_part s :
  (String.length (TrimSpace s) <= String.length s)%nat /\
  forall p c, String.get p (TrimSpace s) = Some c ->
              exists q, String.get q s = Some c.
Proof.
  unfold TrimSpace, TrimFunc, TrimRightFunc, slice.
  set (t := TrimLeftFunc s IsSpace).
  assert (Ht : (String.length t <= String.length s)%nat /\
               forall p c, String.get p t = Some c ->
                           exists q, String.get q s = Some c).
  { unfold t, TrimLeftFunc, slice.
    destruct (indexFunc s IsSpace false =? -1).
    - split; [simpl; lia|]. intros [|p] c H; discriminate.
    - split; [apply length_substring_le|].
      intros p c H. apply get_substring in H. destruct H as [_ H].
      eauto. }
  destruct Ht as [Hlen Hget]. split.
  - match goal with
    | |- (String.length (substring ?n ?m t) <= _)%nat =>
        destruct (length_substring_le t n m)
    end. lia.
  - intros p c H. apply get_substring in H. destruct H as [_ H].
    eapply Hget. exact H.
Qed.

Lemma names_without_operation callers ctx evt :
  recording ctx = true ->
  operation_kind evt = "" ->
  names_set (calls (AfterQuery callers ctx evt)) =
    match pg.FormattedQuery evt with
    | (q, None) =>
        if IndexByte q " " >=? 0 then
          [TrimSpace
             (slice q 0 (if IndexByte q " " >? 20 then 20 else IndexByte q " "))]
        else []
    | (_, Some _) => []
    end.
Proof.
  intros Hrec Hop. enter_AfterQuery Hrec. rewrite Hop.
  change (String.eqb "" orm.InsertOp) with false.
  change (String.eqb "" "") with true. cbn [negb].
  destruct (pg.FormattedQuery evt) as [q [e|]]; [reflexivity|].
  destruct (IndexByte q " " >=? 0); split_hook; reflexivity.
Qed.

(** X10. When no operation kind was captured, any name [AfterQuery] gives
    the span has at most 20 bytes and contains no space. *)
Theorem text_derived_name_is_short_and_spaceless
        (callers : list runtime.Frame) (ctx : trace.Context)
        (evt : pg.QueryEvent) (name : string) :
  operation_kind evt = "" ->
  In name (names_set (calls (AfterQuery callers ctx evt))) ->
  (String.length name <= 20)%nat /\
  forall j, String.get j name <> Some " "%char.
Proof.
  intros Hop Hin.
  destruct (recording ctx) eqn:Hrec.
  - rewrite (names_without_operation callers ctx evt Hrec Hop) in Hin.
    destruct (pg.FormattedQuery evt) as [q [e|]]; [contradiction|].
    destruct (Z.geb_spec (IndexByte q " ") 0) as [Hidx|Hidx]; [|contradiction].
    destruct Hin as [<-|[]].
    destruct (IndexByte_found q " ") as [_ Hbefore]; [lia|].
    unfold slice.
    set (k := Z.to_nat
                ((if IndexByte q " " >? 20 then 20 else IndexByte q " ") - 0)).
    assert (Hk : (k <= 20)%nat /\ (k <= Z.to_nat (IndexByte q " "))%nat).
    { unfold k. destruct (Z.gtb_spec (IndexByte q " ") 20); lia. }
    destruct (TrimSpace_part (substring (Z.to_nat 0) k q)) as [Hlen Hget].
    destruct (length_substring_le q (Z.to_nat 0) k) as [Hl _].
    split; [lia|].
    intros j Hj. destruct (Hget j " "%char Hj) as [p Hp].
    apply get_substring in Hp. destruct Hp as [Hpk Hp].
    change (Z.to_nat 0) with 0%nat in Hp. rewrite Nat.add_0_r in Hp.
    apply (Hbefore p); [lia|exact Hp].
  - unfold AfterQuery, recording in *. rewrite Hrec in Hin. contradiction.
Qed.

(** X11. When no operation kind was captured and the query text begins
    with a space, [AfterQuery] sets the span name to the empty string. *)
Theorem leading_space_gives_empty_name
        (callers : list runtime.Frame) (ctx : trace.Context)
        (evt : pg.QueryEvent) (rest : string) :
  recording ctx = true ->
  operation_kind evt = "" ->
  rendering evt = (String " " rest, None) ->
  names_set (calls (AfterQuery callers ctx evt)) = [""].
Proof.
  intros Hrec Hop Hr.
  rewrite (names_without_operation callers ctx evt Hrec Hop).
  unfold rendering in Hr. rewrite Hop in Hr.
  change (String.eqb "" orm.InsertOp) with false in Hr. rewrite Hr.
  rewrite IndexByte_cons, Ascii.eqb_refl. reflexivity.
Qed.

(** ** More on the caller-location resolver *)

Lemma locate_spec_inv pkg frames g :
  locate_spec pkg frames = Some g ->
  exists pre post,
    frames = pre ++ g :: post /\
    Forall (inside pkg) pre /\
    (Contains (runtime.Function g) pkg = false \/ post = []).
Proof.
  induction frames as [|f rest IH]; [discriminate|].
  cbn [locate_spec].
  destruct (Contains (runtime.Function f) pkg) eqn:Hf; cbn [negb].
  - destruct rest as [|h rest].
    + intros [= <-]. exists [], []. repeat split; auto.
    + intros H. destruct (IH H) as (pre & post & Heq & Hpre & Hg).
      exists (f :: pre), post. rewrite Heq.
      repeat split; auto; constructor; assumption.
  - intros [= <-]. exists [], rest. repeat split; auto.
Qed.

(** X12. With fewer than two frames above [funcFileLine]'s caller on the
    stack, [funcFileLine] returns the empty function name, the empty file
    and line 0: the only captured frame is never read. *)
Theorem funcFileLine_zero_on_short_stack
        (stack : list runtime.Frame) (pkg : string) :
  (List.length stack <= 4)%nat ->
  funcFileLine stack pkg = ("", "", 0).
Proof.
  intros H.
  destruct stack as [|a [|b [|c [|d [|e rest]]]]]; try reflexivity.
  simpl in H. lia.
Qed.

(** X13. What [funcFileLine] returns when at least two frames are
    captured: the report of a captured frame [g] that is not the outermost
    one, reached through frames that all lie inside [pkg]; [g] is the first
    frame outside [pkg], or else the frame just below the outermost one. *)
Theorem funcFileLine_selects
        (stack : list runtime.Frame) (pkg : string) :
  (2 <= List.length (captured stack))%nat ->
  exists pre g post,
    captured stack = pre ++ g :: post /\
    post <> [] /\
    Forall (inside pkg) pre /\
    (Contains (runtime.Function g) pkg = false \/ exists l, post = [l]) /\
    funcFileLine stack pkg = report g.
Proof.
  intros Hlen. rewrite funcFileLine_spec.
  destruct (captured stack) as [|a [|b rest]] eqn:Hc;
    [simpl in Hlen; lia | simpl in Hlen; lia |].
  assert (Hne : a :: b :: rest <> []) by discriminate.
  destruct (exists_last Hne) as [front [l Hfl]]. rewrite Hfl.
  rewrite removelast_last.
  destruct front as [|x front]; [discriminate Hfl|].
  destruct (locate_spec_nonempty pkg x front) as [g Hg]. rewrite Hg.
  destruct (locate_spec_inv pkg _ g Hg) as (pre & post & Heq & Hpre & Hor).
  exists pre, g, (post ++ [l]). rewrite Heq, <- app_assoc.
  repeat split; auto.
  - now destruct post.
  - destruct Hor as [Hout| ->]; [now left|right; now exists l].
Qed.

(** X14. The function name [funcFileLine] reports never contains a
    ['/']. *)
Theorem funcFileLine_function_has_no_slash
        (stack : list runtime.Frame) (pkg : string) (j : nat) :
  String.get j (fst (fst (funcFileLine stack pkg))) <> Some "/"%char.
Proof.
  rewrite funcFileLine_spec.
  destruct (locate_spec pkg (removelast (captured stack))) as [f|].
  - apply after_last_slash_no_slash.
  - destruct j; discriminate.
Qed.

(** X15. The call stack matters to the three frame attributes only: with
    another stack above it [AfterQuery] returns the same error, sets the
    same name and status, records the same error, closes the same span and
    attaches the same values under every key other than [frame.func],
    [frame.file] and [frame.line]. *)
Theorem stack_only_affects_frame_attributes
        (callers callers' : list runtime.Frame) (ctx : trace.Context)
        (evt : pg.QueryEvent) (key : string) :
  key <> "frame.func" -> key <> "frame.file" -> key <> "frame.line" ->
  result (AfterQuery callers ctx evt) = result (AfterQuery callers' ctx evt) /\
  names_set (calls (AfterQuery callers ctx evt)) =
    names_set (calls (AfterQuery callers' ctx evt)) /\
  statuses_set (calls (AfterQuery callers ctx evt)) =
    statuses_set (calls (AfterQuery callers' ctx evt)) /\
  errors_recorded (calls (AfterQuery callers ctx evt)) =
    errors_recorded (calls (AfterQuery callers' ctx evt)) /\
  spans_ended (calls (AfterQuery callers ctx evt)) =
    spans_ended (calls (AfterQuery callers' ctx evt)) /\
  attribute key (AfterQuery callers ctx evt) =
    attribute key (AfterQuery callers' ctx evt).
Proof.
  intros H1 H2 H3.
  assert (E1 : String.eqb "frame.func" key = false)
    by (apply String.eqb_neq; congruence).
  assert (E2 : String.eqb "frame.file" key = false)
    by (apply String.eqb_neq; congruence).
  assert (E3 : String.eqb "frame.line" key = false)
    by (apply String.eqb_neq; congruence).
  destruct (recording ctx) eqn:Hrec.
  - destruct (rendering evt) as [b [err|]] eqn:Hr.
    + rewrite (AfterQuery_render_error callers ctx evt b err Hrec Hr).
      rewrite (AfterQuery_render_error callers' ctx evt b err Hrec Hr).
      repeat split.
    + enter_AfterQuery Hrec.
      destruct (String.eqb _ orm.InsertOp); rewrite Hr; split_hook;
        cbn [snd fst app names_set statuses_set errors_recorded spans_ended
             attributes_set values_of label.String label.Int];
        rewrite ?E1, ?E2, ?E3; repeat split; reflexivity.
  - unfold AfterQuery, recording in *. rewrite Hrec. repeat split.
Qed.

(** ** The further properties at the sample inputs *)

Lemma AfterQuery_closes_the_started_span_witness :
  recording sample_ctx = true /\
  trace.ctx_span (fst (trace.start sample_tracer sample_ctx "")) =
    Some (snd (trace.start sample_tracer sample_ctx "")) /\
  trace.IsRecording (snd (trace.start sample_tracer sample_ctx "")) = true /\
  calls (BeforeQuery sample_tracer sample_ctx select_evt) =
    [trace.Start sample_ctx ""] /\
  snd (result (BeforeQuery sample_tracer sample_ctx select_evt)) = None /\
  spans_ended
    (calls (AfterQuery sample_callers
              (fst (result (BeforeQuery sample_tracer sample_ctx select_evt)))
              no_rows_evt)) =
    [snd (trace.start sample_tracer sample_ctx "")].
Proof.
  split; [reflexivity|]. split; [reflexivity|]. split; [reflexivity|].
  apply (AfterQuery_closes_the_started_span sample_tracer sample_callers
           sample_ctx select_evt no_rows_evt); reflexivity.
Defined.

Lemma unrecorded_started_span_is_never_closed_witness :
  recording sample_ctx = true /\
  recording (fst (trace.start unsampled_tracer sample_ctx "")) = false /\
  calls (BeforeQuery unsampled_tracer sample_ctx select_evt) =
    [trace.Start sample_ctx ""] /\
  AfterQuery sample_callers
    (fst (result (BeforeQuery unsampled_tracer sample_ctx select_evt)))
    select_evt = (None, []).
Proof.
  split; [reflexivity|]. split; [reflexivity|].
  apply (unrecorded_started_span_is_never_closed unsampled_tracer
           sample_callers sample_ctx select_evt select_evt); reflexivity.
Defined.

Lemma attributes_applied_once_before_End_witness :
  recording sample_ctx = true /\
  result (AfterQuery sample_callers sample_ctx no_rows_evt) = None /\
  exists before attrs,
    calls (AfterQuery sample_callers sample_ctx no_rows_evt) =
      before ++ [trace.SetAttributes (trace.SpanFromContext sample_ctx) attrs;
                 trace.End_ (trace.SpanFromContext sample_ctx)] /\
    attributes_set before = [] /\
    spans_ended before = [] /\
    (List.length before <= 3)%nat.
Proof.
  split; [reflexivity|]. split; [reflexivity|].
  apply (attributes_applied_once_before_End sample_callers sample_ctx
           no_rows_evt); reflexivity.
Defined.

Lemma no_status_without_error_witness :
  pg.Err select_evt = None /\
  statuses_set (calls (AfterQuery sample_callers sample_ctx select_evt)) = [] /\
  errors_recorded (calls (AfterQuery sample_callers sample_ctx select_evt)) = [].
Proof.
  split; [reflexivity|].
  apply (no_status_without_error sample_callers sample_ctx select_evt);
    reflexivity.
Defined.

Lemma connection_attributes_witness :
  recording sample_ctx = true /\
  rendering select_evt = ("SELECT * FROM orders WHERE id = 7", None) /\
  ((exists opt,
       pg.DB select_evt = pg.PgDB opt /\
       attribute "db.connection_string"
         (AfterQuery sample_callers sample_ctx select_evt) =
         [label.STRING (pg.Addr opt)] /\
       attribute "db.user" (AfterQuery sample_callers sample_ctx select_evt) =
         [label.STRING (pg.User opt)] /\
       attribute "db.name" (AfterQuery sample_callers sample_ctx select_evt) =
         [label.STRING (pg.Database opt)])
   \/
   (pg.DB select_evt = pg.OtherDB /\
    attribute "db.connection_string"
      (AfterQuery sample_callers sample_ctx select_evt) = [] /\
    attribute "db.user" (AfterQuery sample_callers sample_ctx select_evt) = [] /\
    attribute "db.name" (AfterQuery sample_callers sample_ctx select_evt) = [])).
Proof.
  split; [reflexivity|]. split; [reflexivity|].
  apply (connection_attributes sample_callers sample_ctx select_evt
           "SELECT * FROM orders WHERE id = 7"); reflexivity.
Defined.

Lemma attribute_keys_distinct_and_bounded_witness :
  recording sample_ctx = true /\
  result (AfterQuery sample_callers sample_ctx select_evt) = None /\
  NoDup (map fst (attributes_set
                    (calls (AfterQuery sample_callers sample_ctx select_evt)))) /\
  (5 <= List.length
          (attributes_set
             (calls (AfterQuery sample_callers sample_ctx select_evt))) <= 9)%nat.
Proof.
  split; [reflexivity|]. split; [reflexivity|].
  apply (attribute_keys_distinct_and_bounded sample_callers sample_ctx
           select_evt); reflexivity.
Defined.

Lemma frame_attributes_name_the_application_caller_witness :
  recording sample_ctx = true /\
  rendering select_evt = ("SELECT * FROM orders WHERE id = 7", None) /\
  sample_callers =
    [lib_frame "afterQuery" 140; lib_frame "query" 310; lib_frame "Query" 290]
    ++ app_frame :: hd runtime.zeroFrame outer_frames :: tl outer_frames /\
  Forall (inside pg_namespace)
    [lib_frame "afterQuery" 140; lib_frame "query" 310; lib_frame "Query" 290] /\
  Contains (runtime.Function app_frame) pg_namespace = false /\
  (List.length
     [lib_frame "afterQuery" 140; lib_frame "query" 310; lib_frame "Query" 290]
   <= 14)%nat /\
  attribute "frame.func" (AfterQuery sample_callers sample_ctx select_evt) =
    [label.STRING (after_last_slash (runtime.Function app_frame))] /\
  attribute "frame.file" (AfterQuery sample_callers sample_ctx select_evt) =
    [label.STRING (runtime.File app_frame)] /\
  attribute "frame.line" (AfterQuery sample_callers sample_ctx select_evt) =
    [label.INT (runtime.Line app_frame)].
Proof.
  assert (Hin : Forall (inside pg_namespace)
            [lib_frame "afterQuery" 140; lib_frame "query" 310;
             lib_frame "Query" 290])
    by (repeat constructor).
  split; [reflexivity|]. split; [reflexivity|]. split; [reflexivity|].
  split; [exact Hin|]. split; [reflexivity|]. split; [simpl; lia|].
  apply (frame_attributes_name_the_application_caller sample_callers
           [lib_frame "afterQuery" 140; lib_frame "query" 310;
            lib_frame "Query" 290]
           (tl outer_frames) app_frame (hd runtime.zeroFrame outer_frames)
           sample_ctx select_evt "SELECT * FROM orders WHERE id = 7");
    [reflexivity | reflexivity | reflexivity | exact Hin | reflexivity
    | simpl; lia].
Defined.

Lemma text_derived_name_is_short_and_spaceless_witness :
  operation_kind select_evt = "" /\
  In "SELECT" (names_set (calls (AfterQuery sample_callers sample_ctx select_evt))) /\
  (String.length "SELECT" <= 20)%nat /\
  forall j, String.get j "SELECT" <> Some " "%char.
Proof.
  split; [reflexivity|]. split; [left; reflexivity|].
  apply (text_derived_name_is_short_and_spaceless sample_callers sample_ctx
           select_evt "SELECT"); [reflexivity | left; reflexivity].
Defined.

Lemma leading_space_gives_empty_name_witness :
  recording sample_ctx = true /\
  operation_kind padded_evt = "" /\
  rendering padded_evt = (String " " "SELECT 1", None) /\
  names_set (calls (AfterQuery sample_callers sample_ctx padded_evt)) = [""].
Proof.
  split; [reflexivity|]. split; [reflexivity|]. split; [reflexivity|].
  apply (leading_space_gives_empty_name sample_callers sample_ctx padded_evt
           "SELECT 1"); reflexivity.
Defined.

Lemma funcFileLine_zero_on_short_stack_witness :
  (List.length [frame_Callers; frame_funcFileLine; frame_AfterQuery; app_frame]
   <= 4)%nat /\
  funcFileLine [frame_Callers; frame_funcFileLine; frame_AfterQuery; app_frame]
    pg_namespace = ("", "", 0).
Proof.
  split; [simpl; lia|].
  apply (funcFileLine_zero_on_short_stack
           [frame_Callers; frame_funcFileLine; frame_AfterQuery; app_frame]
           pg_namespace).
  simpl; lia.
Defined.

Lemma funcFileLine_selects_witness :
  (2 <= List.length (captured deep_stack))%nat /\
  exists pre g post,
    captured deep_stack = pre ++ g :: post /\
    post <> [] /\
    Forall (inside pg_namespace) pre /\
    (Contains (runtime.Function g) pg_namespace = false \/ exists l, post = [l]) /\
    funcFileLine deep_stack pg_namespace = report g.
Proof.
  split; [vm_compute; lia|].
  apply (funcFileLine_selects deep_stack pg_namespace). vm_compute. lia.
Defined.

Lemma stack_only_affects_frame_attributes_witness :
  "db.statement" <> "frame.func" /\ "db.statement" <> "frame.file" /\
  "db.statement" <> "frame.line" /\
  result (AfterQuery sample_callers sample_ctx select_evt) =
    result (AfterQuery deep_callers sample_ctx select_evt) /\
  names_set (calls (AfterQuery sample_callers sample_ctx select_evt)) =
    names_set (calls (AfterQuery deep_callers sample_ctx select_evt)) /\
  statuses_set (calls (AfterQuery sample_callers sample_ctx select_evt)) =
    statuses_set (calls (AfterQuery deep_callers sample_ctx select_evt)) /\
  errors_recorded (calls (AfterQuery sample_callers sample_ctx select_evt)) =
    errors_recorded (calls (AfterQuery deep_callers sample_ctx select_evt)) /\
  spans_ended (calls (AfterQuery sample_callers sample_ctx select_evt)) =
    spans_ended (calls (AfterQuery deep_callers sample_ctx select_evt)) /\
  attribute "db.statement" (AfterQuery sample_callers sample_ctx select_evt) =
    attribute "db.statement" (AfterQuery deep_callers sample_ctx select_evt).
Proof.
  split; [discriminate|]. split; [discriminate|]. split; [discriminate|].
  apply (stack_only_affects_frame_attributes sample_callers deep_callers
           sample_ctx select_evt "db.statement"); discriminate.
Defined.
